(** * SOC monitoring schedule: rotation pattern, time windows, assignment
      store, schedule generation, swap and leave approval.

    Shallow embedding of [schedule_app/models.py].  Calendar dates are
    proleptic Gregorian ordinals ([date.toordinal()]), Python integers are
    [Z], JSON lists of integers are [list Z], model instances are records,
    Python exceptions are values of [Exn], and the database is an explicit
    state threaded through a small state-and-exception monad. *)

From Stdlib Require Import ZArith List String Bool Lia DecimalString.
Import ListNotations.
Open Scope string_scope.
Open Scope list_scope.
Open Scope Z_scope.

(* ===================================================================== *)
(** ** Exceptions and the state-and-exception monad *)
(* ===================================================================== *)

Inductive Exn : Type :=
| ValueError (msg : string)
| IndexError
| IntegrityError
| DoesNotExist.

Inductive result (A : Type) : Type :=
| Ok (a : A)
| Raise (e : Exn).
Arguments Ok {A} a.
Arguments Raise {A} e.

(** A computation over a state [S]: the state survives an exception, as
    the writes of a Python method survive when a later statement raises. *)
Definition M (S A : Type) : Type := S -> result A * S.

Definition ret {S A} (a : A) : M S A := fun s => (Ok a, s).
Definition raise {S A} (e : Exn) : M S A := fun s => (Raise e, s).
Definition bind {S A B} (m : M S A) (k : A -> M S B) : M S B :=
  fun s => match m s with
           | (Ok a, s') => k a s'
           | (Raise e, s') => (Raise e, s')
           end.
Definition get {S} : M S S := fun s => (Ok s, s).
Definition put {S} (s : S) : M S unit := fun _ => (Ok tt, s).
Definition lift {S A} (r : result A) : M S A := fun s => (r, s).

Declare Scope py_scope.
Delimit Scope py_scope with py.
Notation "x <- c ;; k" := (bind c (fun x => k))
  (at level 100, c at next level, right associativity) : py_scope.
Notation "' p <- c ;; k" := (bind c (fun x => let p := x in k))
  (at level 100, p pattern, c at next level, right associativity) : py_scope.
Notation "c ;;; k" := (bind c (fun _ => k))
  (at level 100, right associativity) : py_scope.

(* ===================================================================== *)
(** ** Dates, times and datetimes *)
(* ===================================================================== *)

Module Calendar.

Definition is_leap (y : Z) : bool :=
  ((y mod 4 =? 0) && (negb (y mod 100 =? 0) || (y mod 400 =? 0)))%bool.

Definition days_before_year (y : Z) : Z :=
  let y1 := y - 1 in y1 * 365 + y1 / 4 - y1 / 100 + y1 / 400.

Definition days_before_month (y m : Z) : Z :=
  nth (Z.to_nat m) [0; 0; 31; 59; 90; 120; 151; 181; 212; 243; 273; 304; 334] 0
  + (if ((m >? 2) && is_leap y)%bool then 1 else 0).

(** [date(y, m, d).toordinal()]: 0001-01-01 has ordinal 1. *)
Definition date (y m d : Z) : Z :=
  days_before_year y + days_before_month y m + d.

(** [date.weekday()]: Monday is 0, Sunday is 6. *)
Definition weekday (d : Z) : Z := (d + 6) mod 7.

End Calendar.
Import Calendar.

(** A [datetime] at minute resolution: every window the scheduling code
    builds is [datetime.combine(date, time(hour, minute))]. *)
Record datetime : Type := mk_datetime {
  dt_date : Z;
  dt_hour : Z;
  dt_minute : Z
}.

(** [datetime.combine(d, time(hour, minute))]; [time] raises [ValueError]
    outside 0..23 and 0..59. *)
Definition combine (d hour minute : Z) : result datetime :=
  if negb ((0 <=? hour) && (hour <=? 23))%bool
  then Raise (ValueError "hour must be in 0..23")
  else if negb ((0 <=? minute) && (minute <=? 59))%bool
  then Raise (ValueError "minute must be in 0..59")
  else Ok (mk_datetime d hour minute).

(** [(e - s).total_seconds()]. *)
Definition total_seconds (s e : datetime) : Z :=
  (dt_date e - dt_date s) * 86400
  + (dt_hour e - dt_hour s) * 3600
  + (dt_minute e - dt_minute s) * 60.

(** Rounding [n / d] to the nearest integer, ties to the even one. *)
Definition round_div (n d : Z) : Z :=
  let q := n / d in
  let r := n mod d in
  if 2 * r <? d then q
  else if d <? 2 * r then q + 1
  else if Z.even q then q else q + 1.

(** [round(seconds / 3600, 2)], kept as an integer number of hundredths
    of an hour.  At minute resolution [seconds * 100 / 3600] is never
    half-way between two integers (see [no_tie_at_minute_resolution]), so
    the binary rounding of the source cannot pick a different neighbour. *)
Definition round_hours (seconds : Z) : Z := round_div (seconds * 100) 3600.

(** [duration_hours > h] for an integer literal [h]. *)
Definition hours_gt (duration_hours h : Z) : bool := duration_hours >? h * 100.

(* ===================================================================== *)
(** ** Analyst and MonitoringType *)
(* ===================================================================== *)

Record Analyst : Type := mk_Analyst {
  analyst_pk : Z;
  display_name : string;
  is_active : bool;
  pattern_position : Z
}.

Record MonitoringType : Type := mk_MonitoringType {
  mt_pk : Z;
  code : string;
  default_start_hour : Z;
  default_start_minute : Z;
  default_end_hour : Z;
  default_end_minute : Z;
  monday_start_offset_hours : Z;
  monday_end_offset_hours : Z
}.

(** [MonitoringType.get_time_window_for_date] *)
Definition get_time_window_for_date (self : MonitoringType) (target_date : Z)
  : result (datetime * datetime) :=
  let is_monday := weekday target_date =? 0 in
  let '(start_date, start_hour) :=
    if (is_monday && (monday_start_offset_hours self >? 0))%bool then
      let start_date := target_date - monday_start_offset_hours self / 24 in
      let start_hour := default_start_hour self - monday_start_offset_hours self mod 24 in
      if start_hour <? 0 then (start_date - 1, start_hour + 24)
      else (start_date, start_hour)
    else (target_date - 1, default_start_hour self) in
  match combine start_date start_hour (default_start_minute self) with
  | Raise e => Raise e
  | Ok start_time =>
    let '(end_date, end_hour) :=
      if (is_monday && (monday_end_offset_hours self >? 0))%bool then
        let end_hour := default_end_hour self + monday_end_offset_hours self in
        if end_hour >=? 24 then (target_date + 1, end_hour - 24)
        else (target_date, end_hour)
      else (target_date, default_end_hour self) in
    match combine end_date end_hour (default_end_minute self) with
    | Raise e => Raise e
    | Ok end_time => Ok (start_time, end_time)
    end
  end.

(* ===================================================================== *)
(** ** SchedulePattern *)
(* ===================================================================== *)

Record SchedulePattern : Type := mk_SchedulePattern {
  reference_start_date : Z;
  em_pattern : list Z;
  dm_pattern : list Z
}.

(** [len(l)] *)
Definition len {A} (l : list A) : Z := Z.of_nat (List.length l).

(** [l[i]] with Python's negative indices and [IndexError]. *)
Definition py_index (l : list Z) (i : Z) : result Z :=
  let j := if i <? 0 then i + len l else i in
  if ((0 <=? j) && (j <? len l))%bool
  then Ok (nth (Z.to_nat j) l 0)
  else Raise IndexError.

(** Truth value of a list: non-empty. *)
Definition truthy {A} (l : list A) : bool :=
  match l with [] => false | _ :: _ => true end.

(** [SchedulePattern.get_assignments_for_date] *)
Definition get_assignments_for_date (self : SchedulePattern) (target_date : Z)
  : result (Z * Z) :=
  let days_diff := target_date - reference_start_date self in
  if days_diff <? 0 then
    let days_diff := Z.abs days_diff in
    let pattern_length :=
      if truthy (em_pattern self) then len (em_pattern self) else 4 in
    match (if truthy (em_pattern self)
           then py_index (em_pattern self) ((- days_diff) mod pattern_length)
           else Ok (days_diff mod 4)) with
    | Raise e => Raise e
    | Ok em_index =>
      match (if truthy (dm_pattern self)
             then py_index (dm_pattern self) ((- days_diff) mod pattern_length)
             else Ok ((em_index + 3) mod 4)) with
      | Raise e => Raise e
      | Ok dm_index => Ok (em_index, dm_index)
      end
    end
  else
    if (truthy (em_pattern self) && (len (em_pattern self) >? days_diff))%bool then
      match py_index (em_pattern self) days_diff with
      | Raise e => Raise e
      | Ok em_index =>
        match py_index (dm_pattern self) days_diff with
        | Raise e => Raise e
        | Ok dm_index => Ok (em_index, dm_index)
        end
      end
    else
      let em_index := days_diff mod 4 in
      let dm_index := (em_index + 3) mod 4 in
      Ok (em_index, dm_index).

(** The loop of [generate_pattern_sequence]: [range(days)] walked from
    [day], appending to both sequences. *)
Fixpoint pattern_loop (n : nat) (day : Z) (em_sequence dm_sequence : list Z)
  : list Z * list Z :=
  match n with
  | O => (em_sequence, dm_sequence)
  | S n' =>
    let em_index := day mod 4 in
    let dm_index := (em_index + 3) mod 4 in
    pattern_loop n' (day + 1) (em_sequence ++ [em_index]) (dm_sequence ++ [dm_index])
  end.

(** [SchedulePattern.generate_pattern_sequence] *)
Definition generate_pattern_sequence (days : Z) : list Z * list Z :=
  pattern_loop (Z.to_nat days) 0 [] [].

(** [SchedulePattern.save]: the tables are generated when either is empty. *)
Definition SchedulePattern_save (self : SchedulePattern) : SchedulePattern :=
  if (negb (truthy (em_pattern self)) || negb (truthy (dm_pattern self)))%bool then
    let '(em, dm) := generate_pattern_sequence 365 in
    mk_SchedulePattern (reference_start_date self) em dm
  else self.

(* ===================================================================== *)
(** ** MonitoringAssignment and the database *)
(* ===================================================================== *)

(** A [MonitoringAssignment] instance.  [id] is [None] until the row is
    inserted; the windows of an instance built without them are [None];
    [duration_hours] is in hundredths of an hour; foreign keys carry the
    referenced row, compared by primary key. *)
Record MonitoringAssignment : Type := mk_MonitoringAssignment {
  id : option Z;
  date : Z;
  monitoring_type : MonitoringType;
  analyst : Analyst;
  window_start : option datetime;
  window_end : option datetime;
  duration_hours : option Z;
  is_monday_assignment : bool;
  is_extended_window : bool;
  status : string;
  notes : string
}.

Definition set_id (v : option Z) (a : MonitoringAssignment) :=
  mk_MonitoringAssignment v (date a) (monitoring_type a) (analyst a)
    (window_start a) (window_end a) (duration_hours a)
    (is_monday_assignment a) (is_extended_window a) (status a) (notes a).
Definition set_analyst (v : Analyst) (a : MonitoringAssignment) :=
  mk_MonitoringAssignment (id a) (date a) (monitoring_type a) v
    (window_start a) (window_end a) (duration_hours a)
    (is_monday_assignment a) (is_extended_window a) (status a) (notes a).
Definition set_window (s e : datetime) (a : MonitoringAssignment) :=
  mk_MonitoringAssignment (id a) (date a) (monitoring_type a) (analyst a)
    (Some s) (Some e) (duration_hours a)
    (is_monday_assignment a) (is_extended_window a) (status a) (notes a).
Definition set_duration_hours (v : Z) (a : MonitoringAssignment) :=
  mk_MonitoringAssignment (id a) (date a) (monitoring_type a) (analyst a)
    (window_start a) (window_end a) (Some v)
    (is_monday_assignment a) (is_extended_window a) (status a) (notes a).
Definition set_is_monday_assignment (v : bool) (a : MonitoringAssignment) :=
  mk_MonitoringAssignment (id a) (date a) (monitoring_type a) (analyst a)
    (window_start a) (window_end a) (duration_hours a)
    v (is_extended_window a) (status a) (notes a).
Definition set_is_extended_window (v : bool) (a : MonitoringAssignment) :=
  mk_MonitoringAssignment (id a) (date a) (monitoring_type a) (analyst a)
    (window_start a) (window_end a) (duration_hours a)
    (is_monday_assignment a) v (status a) (notes a).
Definition set_status (v : string) (a : MonitoringAssignment) :=
  mk_MonitoringAssignment (id a) (date a) (monitoring_type a) (analyst a)
    (window_start a) (window_end a) (duration_hours a)
    (is_monday_assignment a) (is_extended_window a) v (notes a).
Definition set_notes (v : string) (a : MonitoringAssignment) :=
  mk_MonitoringAssignment (id a) (date a) (monitoring_type a) (analyst a)
    (window_start a) (window_end a) (duration_hours a)
    (is_monday_assignment a) (is_extended_window a) (status a) v.

(** The tables the scheduling code reads and writes.  [analysts] is held
    in the order of [Analyst.Meta.ordering], so that [.first()] is the
    first match; [next_id] is the next automatic primary key of the
    assignment table. *)
Record DB : Type := mk_DB {
  analysts : list Analyst;
  monitoring_types : list MonitoringType;
  assignments : list MonitoringAssignment;
  next_id : Z
}.

Definition set_assignments (rows : list MonitoringAssignment) (n : Z) (db : DB) : DB :=
  mk_DB (analysts db) (monitoring_types db) rows n.

(** The key of [Meta.unique_together = ['date', 'monitoring_type']]. *)
Definition key (a : MonitoringAssignment) : Z * Z :=
  (date a, mt_pk (monitoring_type a)).

Definition same_key (a b : MonitoringAssignment) : bool :=
  ((date a =? date b) && (mt_pk (monitoring_type a) =? mt_pk (monitoring_type b)))%bool.

Definition has_pk (pk : Z) (a : MonitoringAssignment) : bool :=
  match id a with Some i => i =? pk | None => false end.

(** INSERT of a row under primary key [pk]: the unique constraint on
    (date, monitoring_type) rejects a key that is already present. *)
Definition insert_row (self : MonitoringAssignment) (pk : Z) : M DB MonitoringAssignment :=
  fun db =>
    if existsb (same_key self) (assignments db) then (Raise IntegrityError, db)
    else
      let row := set_id (Some pk) self in
      (Ok row, set_assignments (assignments db ++ [row]) (Z.max (next_id db) (pk + 1)) db).

(** UPDATE of the row with primary key [pk], under the same constraint. *)
Definition update_row (self : MonitoringAssignment) (pk : Z) : M DB MonitoringAssignment :=
  fun db =>
    if existsb (fun r => same_key self r && negb (has_pk pk r))%bool (assignments db)
    then (Raise IntegrityError, db)
    else (Ok self,
          set_assignments (map (fun r => if has_pk pk r then self else r) (assignments db))
                          (next_id db) db).

(** [models.Model.save]: an instance without primary key is inserted under
    the next automatic one; an instance with one updates its row, and is
    inserted when no row has that key. *)
Definition Model_save (self : MonitoringAssignment) : M DB MonitoringAssignment :=
  fun db =>
    match id self with
    | None => insert_row self (next_id db) db
    | Some pk =>
      if existsb (has_pk pk) (assignments db) then update_row self pk db
      else insert_row self pk db
    end.

(** [self.duration_hours > h]; the field has been set when this is read. *)
Definition duration_gt (self : MonitoringAssignment) (h : Z) : bool :=
  match duration_hours self with
  | Some d => hours_gt d h
  | None => false
  end.

(** The part of [MonitoringAssignment.save] before [super().save()]. *)
Definition pre_save (self : MonitoringAssignment) : result MonitoringAssignment :=
  match
    match window_start self, window_end self with
    | Some s, Some e =>
      Ok (set_duration_hours (round_hours (total_seconds s e)) self)
    | _, _ =>
      match get_time_window_for_date (monitoring_type self) (date self) with
      | Raise e => Raise e
      | Ok (s, e) =>
        Ok (set_duration_hours (round_hours (total_seconds s e)) (set_window s e self))
      end
    end
  with
  | Raise e => Raise e
  | Ok self =>
    let self := set_is_monday_assignment (weekday (date self) =? 0) self in
    Ok (if is_monday_assignment self then
          if ((code (monitoring_type self) =? "EM")%string && duration_gt self 14)%bool
          then set_is_extended_window true self
          else if ((code (monitoring_type self) =? "DM")%string && duration_gt self 24)%bool
          then set_is_extended_window true self
          else self
        else self)
  end.

(** [MonitoringAssignment.save] *)
Definition MonitoringAssignment_save (self : MonitoringAssignment)
  : M DB MonitoringAssignment :=
  (self <- lift (pre_save self) ;; Model_save self)%py.

(** [MonitoringAssignment.objects.create] with keyword arguments: the instance with the
    field defaults for what the caller leaves out, then [save]. *)
Definition new_assignment (d : Z) (mt : MonitoringType) (an : Analyst)
  (ws we : option datetime) (st nt : string) : MonitoringAssignment :=
  mk_MonitoringAssignment None d mt an ws we None false false st nt.

Definition objects_create (kwargs : MonitoringAssignment) : M DB MonitoringAssignment :=
  MonitoringAssignment_save (set_id None kwargs).

(** [MonitoringAssignment.objects.get(pk=pk)] *)
Definition objects_get (pk : Z) : M DB MonitoringAssignment :=
  fun db => match find (has_pk pk) (assignments db) with
            | Some a => (Ok a, db)
            | None => (Raise DoesNotExist, db)
            end.

(** Insertion into a list sorted by [Meta.ordering = ['date',
    'monitoring_type__code']]; rows that compare equal keep their order. *)
Definition meta_le (a b : MonitoringAssignment) : bool :=
  ((date a <? date b)
   || ((date a =? date b)
       && String.leb (code (monitoring_type a)) (code (monitoring_type b))))%bool.

Fixpoint meta_insert (a : MonitoringAssignment) (l : list MonitoringAssignment) :=
  match l with
  | [] => [a]
  | b :: l' => if meta_le a b then a :: l else b :: meta_insert a l'
  end.

Definition order_by_meta (l : list MonitoringAssignment) : list MonitoringAssignment :=
  fold_right meta_insert [] l.

(** Methods of a request run over the request instance and the database. *)
Definition on_db {X A} (m : M DB A) : M (X * DB) A :=
  fun s => let '(r, db') := m (snd s) in (r, (fst s, db')).
Definition get_self {X} : M (X * DB) X := fun s => (Ok (fst s), s).
Definition put_self {X} (x : X) : M (X * DB) unit := fun s => (Ok tt, (x, snd s)).

(** [with transaction.atomic():] the database is rolled back when the
    block raises. *)
Definition atomic {X A} (m : M (X * DB) A) : M (X * DB) A :=
  fun s => match m s with
           | (Ok a, s') => (Ok a, s')
           | (Raise e, s') => (Raise e, (fst s', snd s))
           end.

(** [str(n)] for an integer. *)
Definition str_int (n : Z) : string := NilZero.string_of_int (Z.to_int n).

(* ===================================================================== *)
(** ** ShiftSwapRequest *)
(* ===================================================================== *)

(** The request instance stands for its row as well: [self.save()] of a
    request has no other effect in this model than keeping the instance. *)
Record ShiftSwapRequest : Type := mk_ShiftSwapRequest {
  original_assignment : Z;
  requested_analyst : Analyst;
  swap_status : string;
  swap_reason : string;
  reciprocal_assignment : option Z;
  requested_by : Analyst;
  swap_approved_by : option Analyst;
  responded_at : option Z
}.

(** [ShiftSwapRequest.approve_swap]; [now] is [timezone.now()]. *)
Definition approve_swap (approved_by_analyst : Analyst) (now : Z)
  : M (ShiftSwapRequest * DB) MonitoringAssignment :=
  (self <- get_self ;;
   if negb (swap_status self =? "PENDING")%string
   then raise (ValueError "Swap request is not pending")
   else
     original <- on_db (objects_get (original_assignment self)) ;;
     reciprocal <- on_db (objects_create
       (mk_MonitoringAssignment None
          (date original) (monitoring_type original) (requested_analyst self)
          (window_start original) (window_end original) None false false
          "CONFIRMED"
          ("Swapped with " ++ display_name (analyst original) ++ ". "
             ++ swap_reason self)%string)) ;;
     on_db (MonitoringAssignment_save
       (set_notes ("Originally assigned to " ++ display_name (requested_by self)
                     ++ ", swapped with "
                     ++ display_name (requested_analyst self))%string
          (set_analyst (requested_analyst self) original))) ;;;
     put_self (mk_ShiftSwapRequest
                 (original_assignment self) (requested_analyst self)
                 "APPROVED" (swap_reason self) (id reciprocal)
                 (requested_by self) (Some approved_by_analyst) (Some now)) ;;;
     ret reciprocal)%py.

(* ===================================================================== *)
(** ** LeaveRequest *)
(* ===================================================================== *)

(** [affected_assignments] is the many-to-many relation, held as the set of
    primary keys linked to this request. *)
Record LeaveRequest : Type := mk_LeaveRequest {
  leave_analyst : Analyst;
  start_date : Z;
  end_date : Z;
  leave_status : string;
  covered_by : option Analyst;
  coverage_notes : string;
  auto_adjust_pattern : bool;
  affected_assignments : list Z;
  leave_approved_by : option Analyst;
  updated_at : Z
}.

Definition set_affected_assignments (v : list Z) (l : LeaveRequest) :=
  mk_LeaveRequest (leave_analyst l) (start_date l) (end_date l) (leave_status l)
    (covered_by l) (coverage_notes l) (auto_adjust_pattern l) v
    (leave_approved_by l) (updated_at l).

(** The filter of [assess_impact]. *)
Definition impacted (self : LeaveRequest) (a : MonitoringAssignment) : bool :=
  ((analyst_pk (analyst a) =? analyst_pk (leave_analyst self))
   && ((start_date self <=? date a) && (date a <=? end_date self))
   && existsb (String.eqb (status a)) ["SCHEDULED"; "CONFIRMED"])%bool.

(** [self.affected_assignments.add(assignment)] *)
Definition affected_add (acc : list Z) (a : MonitoringAssignment) : list Z :=
  match id a with
  | Some pk => if existsb (Z.eqb pk) acc then acc else acc ++ [pk]
  | None => acc
  end.

(** [LeaveRequest.assess_impact] *)
Definition assess_impact : M (LeaveRequest * DB) Z :=
  (self <- get_self ;;
   db <- on_db get ;;
   let assignments := order_by_meta (filter (impacted self) (assignments db)) in
   put_self (set_affected_assignments (fold_left affected_add assignments []) self) ;;;
   ret (len assignments))%py.

(** [self.affected_assignments.all()] *)
Definition affected_all (self : LeaveRequest) (db : DB) : list MonitoringAssignment :=
  order_by_meta
    (filter (fun a => existsb (fun pk => has_pk pk a) (affected_assignments self))
            (assignments db)).

(** The loop of [_arrange_coverage] over the rows fetched at its start;
    [coverage] is [self.covered_by]. *)
Fixpoint arrange_loop (self : LeaveRequest) (coverage : Analyst)
  (rows : list MonitoringAssignment) : M DB unit :=
  match rows with
  | [] => ret tt
  | assignment :: rest =>
    (objects_create
       (mk_MonitoringAssignment None
          (date assignment) (monitoring_type assignment) coverage
          (window_start assignment) (window_end assignment) None
          (is_monday_assignment assignment) (is_extended_window assignment)
          "CONFIRMED"
          ("Covering for " ++ display_name (leave_analyst self)
             ++ " on leave. Original assignment ID: "
             ++ match id assignment with Some pk => str_int pk | None => "None" end)%string) ;;;
     MonitoringAssignment_save
       (set_notes ("Cancelled due to leave. Covered by " ++ display_name coverage)%string
          (set_status "CANCELLED" assignment)) ;;;
     arrange_loop self coverage rest)%py
  end.

(** [LeaveRequest._arrange_coverage], called with [self.covered_by] set. *)
Definition _arrange_coverage (coverage : Analyst) : M (LeaveRequest * DB) unit :=
  (self <- get_self ;;
   db <- on_db get ;;
   on_db (arrange_loop self coverage (affected_all self db)))%py.

(** [LeaveRequest.approve_leave]; [now] is [timezone.now()]. *)
Definition approve_leave (approved_by_analyst : Analyst)
  (coverage_analyst : option Analyst) (now : Z) : M (LeaveRequest * DB) Z :=
  (self <- get_self ;;
   if negb (leave_status self =? "PENDING")%string
   then raise (ValueError "Leave request is not pending")
   else
     affected_count <- assess_impact ;;
     self <- get_self ;;
     let '(cov, cov_notes) :=
       match coverage_analyst with
       | Some c => (Some c, ("Coverage arranged by "
                               ++ display_name approved_by_analyst)%string)
       | None => (covered_by self, coverage_notes self)
       end in
     let self := mk_LeaveRequest (leave_analyst self) (start_date self)
                   (end_date self) "APPROVED" cov cov_notes
                   (auto_adjust_pattern self) (affected_assignments self)
                   (Some approved_by_analyst) now in
     put_self self ;;;
     match auto_adjust_pattern self, covered_by self with
     | true, Some coverage => _arrange_coverage coverage
     | _, _ => ret tt
     end ;;;
     ret affected_count)%py.

(* ===================================================================== *)
(** ** ScheduleGenerator *)
(* ===================================================================== *)

Record ScheduleGenerator : Type := mk_ScheduleGenerator {
  pattern : SchedulePattern;
  last_generated : option Z
}.

(** [Analyst.objects.filter(pattern_position=i, is_active=True).first()] *)
Definition analyst_at (i : Z) (db : DB) : option Analyst :=
  find (fun a => (pattern_position a =? i) && is_active a)%bool (analysts db).

(** [MonitoringType.objects.filter(code=c).first()] *)
Definition type_with_code (c : string) (db : DB) : option MonitoringType :=
  find (fun t => (code t =? c)%string) (monitoring_types db).

(** [MonitoringAssignment.objects.filter(date=d).exists()] *)
Definition exists_for_date (d : Z) (db : DB) : bool :=
  existsb (fun a => date a =? d) (assignments db).

(** The [while current_date <= end_date] loop of [generate_schedule], with
    [n] the number of dates left in the range. *)
Fixpoint generate_loop (pat : SchedulePattern) (n : nat) (current_date : Z)
  (assignments_created : Z) : M DB Z :=
  match n with
  | O => ret assignments_created
  | S n' =>
    (db <- get ;;
     if exists_for_date current_date db
     then generate_loop pat n' (current_date + 1) assignments_created
     else
       ' (em_index, dm_index) <- lift (get_assignments_for_date pat current_date) ;;
       match analyst_at em_index db, analyst_at dm_index db with
       | Some em_analyst, Some dm_analyst =>
         match type_with_code "EM" db, type_with_code "DM" db with
         | Some em_type, Some dm_type =>
           ' (em_start, em_end) <- lift (get_time_window_for_date em_type current_date) ;;
           ' (dm_start, dm_end) <- lift (get_time_window_for_date dm_type current_date) ;;
           objects_create (new_assignment current_date em_type em_analyst
                             (Some em_start) (Some em_end) "CONFIRMED" "") ;;;
           objects_create (new_assignment current_date dm_type dm_analyst
                             (Some dm_start) (Some dm_end) "CONFIRMED" "") ;;;
           generate_loop pat n' (current_date + 1) (assignments_created + 1 + 1)
         | _, _ => raise (ValueError "Monitoring types not configured")
         end
       | _, _ =>
         raise (ValueError ("Analysts not found for pattern positions "
                              ++ str_int em_index ++ ", " ++ str_int dm_index)%string)
       end)%py
  end.

(** [ScheduleGenerator.generate_schedule]; [now] is [timezone.now()]. *)
Definition generate_schedule (start_date end_date now : Z)
  : M (ScheduleGenerator * DB) Z :=
  atomic
    (self <- get_self ;;
     assignments_created <-
       on_db (generate_loop (pattern self)
                (Z.to_nat (end_date - start_date + 1)) start_date 0) ;;
     put_self (mk_ScheduleGenerator (pattern self) (Some now)) ;;;
     ret assignments_created)%py.

(* ===================================================================== *)
(** ** Further methods of the models, and the assignment form *)
(* ===================================================================== *)

Definition set_default_end_hour (v : Z) (t : MonitoringType) : MonitoringType :=
  mk_MonitoringType (mt_pk t) (code t) (default_start_hour t)
    (default_start_minute t) v (default_end_minute t)
    (monday_start_offset_hours t) (monday_end_offset_hours t).

(** The part of [MonitoringType.save] before [super().save()]. *)
Definition MonitoringType_pre_save (self : MonitoringType) : MonitoringType :=
  if ((code self =? "EM")%string && (default_end_hour self =? 17))%bool
  then set_default_end_hour 7 self
  else if ((code self =? "DM")%string && (default_end_hour self =? 7))%bool
  then set_default_end_hour 17 self
  else self.

(** The properties [is_past_due], [is_current] and [is_future] of
    [MonitoringAssignment]; [today] is [date.today()]. *)
Definition is_past_due (today : Z) (self : MonitoringAssignment) : bool :=
  ((date self <? today)
   && negb (existsb (String.eqb (status self)) ["COMPLETED"; "CANCELLED"]))%bool.

Definition is_current (today : Z) (self : MonitoringAssignment) : bool :=
  date self =? today.

Definition is_future (today : Z) (self : MonitoringAssignment) : bool :=
  date self >? today.

(** The [ValidationError]s of the models and forms, one constructor per
    message; a constructor carries the values its message is formatted
    from. *)
Inductive ValidationError : Type :=
| CannotSwapPast
    (* "Cannot swap past assignments" *)
| AnalystAlreadyHas (an : Analyst) (existing : MonitoringAssignment)
    (* "<display_name> already has <monitoring_type> on <date>" *)
| SameAnalystSameDay
    (* "EM and DM cannot be assigned to the same analyst on the same day" *)
| EndBeforeStart
    (* "End date must be after start date" *)
| PastLeave
    (* "Cannot request leave for past dates" *)
| KindAlreadyAssigned (mt : MonitoringType) (d : Z)
    (* "<monitoring_type> is already assigned for <date>" *)
| AnalystAlreadyAssigned (an : Analyst) (other_type : MonitoringType) (d : Z)
    (* "<name> is already assigned to <other_type> on <date>" *)
| MoreThan180Days
    (* "Cannot generate schedule for more than 180 days at once" *).

(** The outcome of a [clean] method: it returns, or raises a
    [ValidationError]. *)
Inductive validation : Type :=
| Valid
| Invalid (e : ValidationError).

(** [queryset.first()] of assignments, in the order of [Meta.ordering]. *)
Definition first_assignment (l : list MonitoringAssignment) : option MonitoringAssignment :=
  hd_error (order_by_meta l).

(** [a == b] on analysts: the same primary key. *)
Definition analyst_eq (a b : Analyst) : bool := analyst_pk a =? analyst_pk b.

(** [ShiftSwapRequest.clean]; [today] is [date.today()]. *)
Definition ShiftSwapRequest_clean (today : Z) (self : ShiftSwapRequest)
  : M DB validation :=
  (original <- objects_get (original_assignment self) ;;
   db <- get ;;
   if date original <? today then ret (Invalid CannotSwapPast)
   else
     match first_assignment
             (filter (fun a => (date a =? date original)
                               && analyst_eq (analyst a) (requested_analyst self))%bool
                     (assignments db)) with
     | Some existing_assignment =>
       ret (Invalid (AnalystAlreadyHas (requested_analyst self) existing_assignment))
     | None =>
       if (code (monitoring_type original) =? "EM")%string then
         match first_assignment
                 (filter (fun a => (date a =? date original)
                                   && (code (monitoring_type a) =? "DM")%string)%bool
                         (assignments db)) with
         | Some dm_assignment =>
           if analyst_eq (analyst dm_assignment) (requested_analyst self)
           then ret (Invalid SameAnalystSameDay)
           else ret Valid
         | None => ret Valid
         end
       else ret Valid
     end)%py.

(** [LeaveRequest.clean]; [today] is [date.today()]. *)
Definition LeaveRequest_clean (today : Z) (self : LeaveRequest) : validation :=
  if end_date self <? start_date self then Invalid EndBeforeStart
  else if start_date self <? today then Invalid PastLeave
  else Valid.

(** [ScheduleGenerator.generate_next_5_months]; [today] is
    [date.today()]. *)
Definition generate_next_5_months (today now : Z) : M (ScheduleGenerator * DB) Z :=
  let end_date := today + 150 in
  generate_schedule today end_date now.

(** [.exclude(pk=instance_pk)]: with [None] nothing is excluded. *)
Definition exclude_pk (instance_pk : option Z) (l : list MonitoringAssignment)
  : list MonitoringAssignment :=
  match instance_pk with
  | Some pk => filter (fun a => negb (has_pk pk a)) l
  | None => l
  end.

(** [MonitoringAssignmentForm.clean] ([forms.py]) on the cleaned values of
    the date, monitoring type and analyst fields ([None] for a field that
    did not validate); [instance_pk] is [self.instance.pk]. *)
Definition MonitoringAssignmentForm_clean (instance_pk : option Z)
  (date_value : option Z) (monitoring_type_value : option MonitoringType)
  (analyst_value : option Analyst) (db : DB) : validation :=
  match date_value, monitoring_type_value, analyst_value with
  | Some date_value, Some mt, Some an =>
    let existing :=
      exclude_pk instance_pk
        (filter (fun a => (date a =? date_value)
                          && (mt_pk (monitoring_type a) =? mt_pk mt))%bool
                (assignments db)) in
    if truthy existing then Invalid (KindAlreadyAssigned mt date_value)
    else
      let other_assignment :=
        exclude_pk instance_pk
          (filter (fun a => (date a =? date_value) && analyst_eq (analyst a) an)%bool
                  (assignments db)) in
      match first_assignment other_assignment with
      | Some other => Invalid (AnalystAlreadyAssigned an (monitoring_type other) date_value)
      | None => Valid
      end
  | _, _, _ => Valid
  end.

(** The write of [CreateAssignmentView.form_valid] ([views.py]): the new
    instance takes the form fields, its window is computed from the
    monitoring type and the date, and it is saved.  The notification and
    the flash message that follow are outside the model. *)
Definition CreateAssignmentView_form_valid (date_value : Z) (mt : MonitoringType)
  (an : Analyst) (notes_value : string) : M DB MonitoringAssignment :=
  (' (start_time, end_time) <- lift (get_time_window_for_date mt date_value) ;;
   MonitoringAssignment_save
     (new_assignment date_value mt an (Some start_time) (Some end_time)
        "SCHEDULED" notes_value))%py.

(** [ScheduleGenerationForm.clean] ([forms.py]) on the cleaned dates. *)
Definition ScheduleGenerationForm_clean (start_value end_value : option Z) : validation :=
  match start_value, end_value with
  | Some start_date, Some end_date =>
    if end_date <? start_date then Invalid EndBeforeStart
    else if end_date - start_date >? 180 then Invalid MoreThan180Days
    else Valid
  | _, _ => Valid
  end.

(** A row as [generate_schedule] writes it: CONFIRMED, for the first
    active analyst at the EM slot of its date with the EM type, or at the
    DM slot with the DM type, over the window of its type on its date. *)
Definition generated_row (pat : SchedulePattern) (db : DB)
  (a : MonitoringAssignment) : Prop :=
  exists em_index dm_index,
    get_assignments_for_date pat (date a) = Ok (em_index, dm_index)
    /\ status a = "CONFIRMED"
    /\ (type_with_code "EM" db = Some (monitoring_type a)
        /\ analyst_at em_index db = Some (analyst a)
        \/ type_with_code "DM" db = Some (monitoring_type a)
           /\ analyst_at dm_index db = Some (analyst a))
    /\ exists ws we,
         get_time_window_for_date (monitoring_type a) (date a) = Ok (ws, we)
         /\ window_start a = Some ws /\ window_end a = Some we.

(** The dates [c], [c + 1], ... ([n] of them) that have no assignment. *)
Definition free_dates (c : Z) (n : nat) (db : DB) : list Z :=
  filter (fun d => negb (exists_for_date d db))
         (map (fun i => c + Z.of_nat i) (seq 0 n)).

(** No analyst holds two assignments on one date. *)
Definition no_double_booking (db : DB) : Prop :=
  NoDup (map (fun a => (date a, analyst_pk (analyst a))) (assignments db)).

(* ===================================================================== *)
(** ** Predicates and sample data of the properties *)
(* ===================================================================== *)

(** The table after an UPDATE of the row with primary key [pk]. *)
Definition replace_pk (pk : Z) (self : MonitoringAssignment)
  (rows : list MonitoringAssignment) : list MonitoringAssignment :=
  map (fun r => if has_pk pk r then self else r) rows.

(** The outcomes of [Model.save]: rejected by the unique constraint,
    inserted, or updated. *)
Inductive write_outcome (a0 : MonitoringAssignment) (db : DB)
  : result MonitoringAssignment * DB -> Prop :=
| write_rejected :
    write_outcome a0 db (Raise IntegrityError, db)
| write_inserted (pk : Z) :
    existsb (same_key a0) (assignments db) = false ->
    (id a0 = None /\ pk = next_id db
     \/ id a0 = Some pk /\ existsb (has_pk pk) (assignments db) = false) ->
    write_outcome a0 db
      (Ok (set_id (Some pk) a0),
       set_assignments (assignments db ++ [set_id (Some pk) a0])
                       (Z.max (next_id db) (pk + 1)) db)
| write_updated (pk : Z) :
    id a0 = Some pk ->
    existsb (has_pk pk) (assignments db) = true ->
    existsb (fun r => same_key a0 r && negb (has_pk pk r))%bool (assignments db) = false ->
    write_outcome a0 db
      (Ok a0, set_assignments (replace_pk pk a0 (assignments db)) (next_id db) db).

(** An operation keeps an invariant of the database, whether it returns
    or raises; [proj] selects the database in the state of the operation. *)
Definition keeps (Inv : DB -> Prop) {S A} (proj : S -> DB) (m : M S A) : Prop :=
  forall s, Inv (proj s) -> Inv (proj (snd (m s))).

(** [Meta.unique_together]: no two rows share (date, monitoring_type). *)
Definition unique_together (db : DB) : Prop :=
  NoDup (map key (assignments db)).

(** A well-formed table: unique keys, unique primary keys, all of them
    below the next automatic one. *)
Definition db_wf (db : DB) : Prop :=
  unique_together db
  /\ NoDup (map id (assignments db))
  /\ Forall (fun r => exists pk, id r = Some pk /\ pk < next_id db) (assignments db).

(** The window of an instance is given, or can be computed from its
    monitoring type and date. *)
Definition window_known (a : MonitoringAssignment) : Prop :=
  (window_start a <> None /\ window_end a <> None)
  \/ exists w, get_time_window_for_date (monitoring_type a) (date a) = Ok w.

(** Every stored row has its Monday flag in agreement with its date. *)
Definition monday_flags_ok (db : DB) : Prop :=
  Forall (fun r => is_monday_assignment r = (weekday (date r) =? 0))
         (assignments db).

(** The body of the loop of [generate_schedule] for a date that is not
    skipped. *)
Definition generate_day (pat : SchedulePattern) (current_date : Z) : M DB unit :=
  (db <- get ;;
   ' (em_index, dm_index) <- lift (get_assignments_for_date pat current_date) ;;
   match analyst_at em_index db, analyst_at dm_index db with
   | Some em_analyst, Some dm_analyst =>
     match type_with_code "EM" db, type_with_code "DM" db with
     | Some em_type, Some dm_type =>
       ' (em_start, em_end) <- lift (get_time_window_for_date em_type current_date) ;;
       ' (dm_start, dm_end) <- lift (get_time_window_for_date dm_type current_date) ;;
       objects_create (new_assignment current_date em_type em_analyst
                         (Some em_start) (Some em_end) "CONFIRMED" "") ;;;
       objects_create (new_assignment current_date dm_type dm_analyst
                         (Some dm_start) (Some dm_end) "CONFIRMED" "") ;;;
       ret tt
     | _, _ => raise (ValueError "Monitoring types not configured")
     end
   | _, _ =>
     raise (ValueError ("Analysts not found for pattern positions "
                          ++ str_int em_index ++ ", " ++ str_int dm_index)%string)
   end)%py.

(** The pattern as [SchedulePattern.save] stores it, with reference date
    Monday 2024-01-01. *)
Definition pattern_2024 : SchedulePattern :=
  SchedulePattern_save (mk_SchedulePattern (Calendar.date 2024 1 1) [] []).

(** ** The initial data of the deployment ([create_initial_data.py]) *)

Module InitialData.

Definition ebisa : Analyst := mk_Analyst 1 "Ebisa" true 0.
Definition gezagn : Analyst := mk_Analyst 2 "Gezagn" true 1.
Definition natnael : Analyst := mk_Analyst 3 "Natnael" true 2.
Definition nurahmed : Analyst := mk_Analyst 4 "Nurahmed" true 3.

Definition EM : MonitoringType := mk_MonitoringType 1 "EM" 17 0 7 0 58 0.
Definition DM : MonitoringType := mk_MonitoringType 2 "DM" 17 0 17 0 48 0.

(** The tables before any assignment exists. *)
Definition empty_db : DB :=
mk_DB [ebisa; gezagn; natnael; nurahmed] [EM; DM] [] 1.

Definition generator : ScheduleGenerator := mk_ScheduleGenerator pattern_2024 None.

Definition monday : Z := Calendar.date 2024 1 8.
Definition tuesday : Z := Calendar.date 2024 1 9.

(** The database after generating Monday 2024-01-08 and Tuesday
  2024-01-09: rows 1 and 2 are Monday's EM and DM, rows 3 and 4 are
  Tuesday's. *)
Definition two_days : ScheduleGenerator * DB :=
snd (generate_schedule monday tuesday 0 (generator, empty_db)).

Definition two_days_db : DB := snd two_days.

End InitialData.

(** A Wednesday instance whose caller claims it is a Monday one. *)
Definition mislabelled_wednesday : MonitoringAssignment :=
  mk_MonitoringAssignment None (Calendar.date 2024 1 10) InitialData.EM
    InitialData.ebisa None None None true false "SCHEDULED" "".

(** An early-morning type whose shift starts at 16:00: a 15-hour window on
    every ordinary day. *)
Definition EM_from_16 : MonitoringType := mk_MonitoringType 1 "EM" 16 0 7 0 58 0.

(** Ebisa on leave on Monday 2024-01-08 and Tuesday 2024-01-09; Ebisa
    holds the EM duty of the Tuesday (row 3). *)
Definition ebisa_leave : LeaveRequest :=
  mk_LeaveRequest InitialData.ebisa InitialData.monday InitialData.tuesday
    "PENDING" None "" true [] None 0.

(* ===================================================================== *)
(** * Properties *)
(* ===================================================================== *)

(** ** Rotation pattern *)

Example date_2024_01_08 : Calendar.date 2024 1 8 = 738893 /\ weekday (Calendar.date 2024 1 8) = 0.
Proof. split; reflexivity. Qed.

Section PatternFacts.

Lemma pattern_loop_spec (n : nat) : forall day em dm,
  pattern_loop n day em dm =
  (em ++ map (fun k => (day + Z.of_nat k) mod 4) (seq 0 n),
   dm ++ map (fun k => ((day + Z.of_nat k) mod 4 + 3) mod 4) (seq 0 n)).
Proof.
  induction n as [|n IH]; intros day em dm; simpl.
  - now rewrite !app_nil_r.
  - rewrite IH, <- !app_assoc. simpl.
    rewrite Z.add_0_r, <- seq_shift, !map_map.
    f_equal; do 2 f_equal; apply map_ext; intro k;
      replace (day + 1 + Z.of_nat k) with (day + Z.of_nat (S k)) by lia;
      reflexivity.
Qed.

Lemma generate_pattern_sequence_spec (days : Z) :
  generate_pattern_sequence days =
  (map (fun k => Z.of_nat k mod 4) (seq 0 (Z.to_nat days)),
   map (fun k => (Z.of_nat k mod 4 + 3) mod 4) (seq 0 (Z.to_nat days))).
Proof. unfold generate_pattern_sequence. now rewrite pattern_loop_spec. Qed.

Lemma len_map_seq (f : nat -> Z) (n : nat) : len (map f (seq 0 n)) = Z.of_nat n.
Proof. unfold len. now rewrite length_map, length_seq. Qed.

(** Indexing a generated table inside its bounds. *)
Lemma py_index_map_seq (f : nat -> Z) (n : nat) (i : Z) :
  0 <= i < Z.of_nat n ->
  py_index (map f (seq 0 n)) i = Ok (f (Z.to_nat i)).
Proof.
  intros Hi. unfold py_index. rewrite len_map_seq.
  destruct (i <? 0) eqn:Hneg; [lia|].
  replace ((0 <=? i) && (i <? Z.of_nat n))%bool with true
    by (symmetry; apply andb_true_intro; split; lia).
  f_equal.
  rewrite nth_indep with (d' := f 0%nat) by (rewrite length_map, length_seq; lia).
  rewrite map_nth with (f := f), seq_nth by lia. reflexivity.
Qed.

Lemma truthy_map_seq (f : nat -> Z) (n : nat) :
  truthy (map f (seq 0 n)) = negb (Nat.eqb n 0).
Proof. destruct n; reflexivity. Qed.

End PatternFacts.

(** C1 (the code departs from the claim).  One day before the reference
    date the true modulo of the day difference is 3, but
    [get_assignments_for_date] returns EM slot 0 on the stored 365-entry
    table (it indexes the table at [-1 mod 365 = 364]), and EM slot 1 when
    the tables are empty (it takes [abs(-1) mod 4]). *)
Theorem C1_em_slot_before_reference_date :
  let d := Calendar.date 2023 12 31 in
  let ref := Calendar.date 2024 1 1 in
  (((d - ref) mod 4) + 4) mod 4 = 3
  /\ get_assignments_for_date pattern_2024 d = Ok (0, 3)
  /\ get_assignments_for_date (mk_SchedulePattern ref [] []) d = Ok (1, 0).
Proof. vm_compute. repeat split. Qed.

(** C6.  With the tables produced by [generate_pattern_sequence], for every
    date [get_assignments_for_date] returns a pair whose DM slot is
    (EM slot + 3) mod 4: before the reference date, inside the table and
    beyond it. *)
Theorem C6_dm_slot_is_em_slot_plus_3 (days ref d : Z) :
  exists em_index,
    get_assignments_for_date
      (mk_SchedulePattern ref (fst (generate_pattern_sequence days))
                              (snd (generate_pattern_sequence days))) d
    = Ok (em_index, (em_index + 3) mod 4).
Proof.
  rewrite generate_pattern_sequence_spec. simpl fst; simpl snd.
  unfold get_assignments_for_date; simpl.
  rewrite !truthy_map_seq, len_map_seq.
  destruct (d - ref <? 0) eqn:Hneg.
  - destruct (Nat.eqb (Z.to_nat days) 0) eqn:Hn; simpl.
    + eexists; reflexivity.
    + apply Nat.eqb_neq in Hn.
      assert (Hr : 0 <= (- Z.abs (d - ref)) mod Z.of_nat (Z.to_nat days)
                   < Z.of_nat (Z.to_nat days))
        by (apply Z.mod_pos_bound; lia).
      rewrite !py_index_map_seq by exact Hr.
      eexists; reflexivity.
  - destruct (negb (Nat.eqb (Z.to_nat days) 0)
              && (Z.of_nat (Z.to_nat days) >? d - ref))%bool eqn:Hin.
    + apply andb_prop in Hin as [_ Hlt].
      apply Z.gtb_lt in Hlt. apply Z.ltb_ge in Hneg.
      rewrite !py_index_map_seq by lia.
      eexists; reflexivity.
    + eexists; reflexivity.
Qed.

(** ** Durations *)

Section DurationFacts.

Lemma round_div_lower (n d k : Z) : 0 < d -> k * d <= n -> k <= round_div n d.
Proof.
  intros Hd Hk. unfold round_div.
  assert (Hq : k <= n / d) by (apply Z.div_le_lower_bound; lia).
  destruct (2 * (n mod d) <? d); [exact Hq|].
  destruct (d <? 2 * (n mod d)); [lia|].
  destruct (Z.even (n / d)); lia.
Qed.

Lemma round_div_exact (k d : Z) : 0 < d -> round_div (k * d) d = k.
Proof.
  intros Hd. unfold round_div.
  rewrite Z.div_mul, Z.mod_mul by lia.
  destruct (2 * 0 <? d) eqn:H; [reflexivity|].
  apply Z.ltb_ge in H. lia.
Qed.

(** At minute resolution the quotient is never half-way between two
    hundredths, so the tie rule of [round_div] is never consulted. *)
Lemma no_tie_at_minute_resolution (s e : datetime) :
  2 * ((total_seconds s e * 100) mod 3600) <> 3600.
Proof.
  unfold total_seconds.
  set (n := ((dt_date e - dt_date s) * 86400 + (dt_hour e - dt_hour s) * 3600
             + (dt_minute e - dt_minute s) * 60) * 100).
  pose proof (Z.div_mod n 3600 ltac:(lia)) as Hdm.
  intros Hr. subst n. lia.
Qed.

Lemma round_hours_lower (seconds h : Z) :
  h * 3600 <= seconds -> h * 100 <= round_hours seconds.
Proof. intros H. apply round_div_lower; lia. Qed.

End DurationFacts.

(** ** Saving an assignment *)

Section SaveFacts.

(** What [pre_save] computes: the key fields are kept, the windows are
    present, the duration is the rounded length of the window, the
    Monday flag is recomputed from the date, and on a Monday the
    extended flag is raised above the threshold of the kind. *)
Lemma pre_save_spec (a a0 : MonitoringAssignment) :
  pre_save a = Ok a0 ->
  id a0 = id a /\ date a0 = date a /\ monitoring_type a0 = monitoring_type a
  /\ analyst a0 = analyst a /\ status a0 = status a /\ notes a0 = notes a
  /\ is_monday_assignment a0 = (weekday (date a) =? 0)
  /\ (exists s e, window_start a0 = Some s /\ window_end a0 = Some e
                  /\ duration_hours a0 = Some (round_hours (total_seconds s e)))
  /\ (weekday (date a) = 0 ->
      ((code (monitoring_type a) =? "EM")%string && duration_gt a0 14
       || (code (monitoring_type a) =? "DM")%string && duration_gt a0 24)%bool = true ->
      is_extended_window a0 = true).
Proof.
  unfold pre_save. intros H.
  destruct (window_start a) as [s|] eqn:Hs; [destruct (window_end a) as [e|] eqn:He|].
  2,3: destruct (get_time_window_for_date (monitoring_type a) (date a))
         as [[s' e']|] eqn:Hw; [|discriminate].
  all: cbn [set_duration_hours set_window set_is_monday_assignment
            is_monday_assignment date monitoring_type id analyst status notes
            window_start window_end duration_hours] in H.
  all: destruct (weekday (date a) =? 0) eqn:Hmon.
  all: unfold duration_gt in *;
       cbn [set_duration_hours set_window set_is_monday_assignment
            set_is_extended_window is_extended_window
            is_monday_assignment date monitoring_type id analyst status notes
            window_start window_end duration_hours] in *.
  all: destruct (code (monitoring_type a) =? "EM")%string;
       destruct (code (monitoring_type a) =? "DM")%string;
       cbn [andb orb] in *.
  all: repeat match type of H with
              | context [if ?c then _ else _] => destruct c eqn:?
              end.
  all: injection H as <-; cbn.
  all: repeat split; try reflexivity; try congruence; eauto.
  all: try (intros Hm; apply Z.eqb_neq in Hmon; contradiction).
  all: intros _ Hc;
       repeat match goal with
              | Hb : hours_gt _ _ = false |- _ => rewrite Hb in Hc; clear Hb
              end;
       cbn in Hc; discriminate.
Qed.

End SaveFacts.

(** ** The three outcomes of a database write *)

Section WriteFacts.

Lemma Model_save_outcome (a0 : MonitoringAssignment) (db : DB) :
  write_outcome a0 db (Model_save a0 db).
Proof.
  unfold Model_save, insert_row, update_row.
  destruct (id a0) as [pk|] eqn:Hid.
  - destruct (existsb (has_pk pk) (assignments db)) eqn:Hpk.
    + destruct (existsb (fun r => same_key a0 r && negb (has_pk pk r))%bool
                        (assignments db)) eqn:Hc.
      * constructor.
      * now apply write_updated.
    + destruct (existsb (same_key a0) (assignments db)) eqn:Hk.
      * constructor.
      * apply write_inserted; auto.
  - destruct (existsb (same_key a0) (assignments db)) eqn:Hk.
    + constructor.
    + apply write_inserted; auto.
Qed.

(** A save either raises and leaves the database as it was, or stores
    the instance computed by [pre_save] (under its primary key). *)
Lemma save_raise (a : MonitoringAssignment) (db db' : DB) (e : Exn) :
  MonitoringAssignment_save a db = (Raise e, db') -> db' = db.
Proof.
  unfold MonitoringAssignment_save, bind, lift.
  destruct (pre_save a) as [a0|e0]; [|congruence].
  destruct (Model_save_outcome a0 db); congruence.
Qed.

Lemma save_ok (a a' : MonitoringAssignment) (db db' : DB) :
  MonitoringAssignment_save a db = (Ok a', db') ->
  exists a0, pre_save a = Ok a0 /\ Model_save a0 db = (Ok a', db').
Proof.
  unfold MonitoringAssignment_save, bind, lift.
  destruct (pre_save a) as [a0|e0]; [|congruence].
  intros H. now exists a0.
Qed.

Lemma has_pk_self (pk : Z) (a0 : MonitoringAssignment) :
  id a0 = Some pk -> has_pk pk a0 = true.
Proof. unfold has_pk. intros ->. apply Z.eqb_refl. Qed.

Lemma In_replace_pk (pk : Z) (a0 : MonitoringAssignment) rows :
  existsb (has_pk pk) rows = true -> In a0 (replace_pk pk a0 rows).
Proof.
  intros H. apply existsb_exists in H as (r & Hin & Hr).
  unfold replace_pk. apply in_map_iff. exists r. now rewrite Hr.
Qed.

(** The stored row has the fields of the written instance. *)
Lemma Model_save_ok (a0 a' : MonitoringAssignment) (db db' : DB) :
  Model_save a0 db = (Ok a', db') ->
  a' = set_id (id a') a0 /\ In a' (assignments db')
  /\ analysts db' = analysts db /\ monitoring_types db' = monitoring_types db.
Proof.
  intros H. pose proof (Model_save_outcome a0 db) as O. rewrite H in O.
  inversion O; subst; cbn.
  - repeat split. apply in_or_app. right. now left.
  - repeat split.
    + now destruct a'.
    + now apply In_replace_pk.
Qed.

Lemma set_id_fields (v : option Z) (a0 : MonitoringAssignment) :
  date (set_id v a0) = date a0
  /\ monitoring_type (set_id v a0) = monitoring_type a0
  /\ analyst (set_id v a0) = analyst a0
  /\ window_start (set_id v a0) = window_start a0
  /\ window_end (set_id v a0) = window_end a0
  /\ duration_hours (set_id v a0) = duration_hours a0
  /\ is_monday_assignment (set_id v a0) = is_monday_assignment a0
  /\ is_extended_window (set_id v a0) = is_extended_window a0
  /\ status (set_id v a0) = status a0
  /\ notes (set_id v a0) = notes a0.
Proof. repeat split. Qed.

End WriteFacts.

(** After a successful save the stored assignment has the date it was
    saved with and its Monday flag is recomputed from that date. *)
Lemma save_sets_monday_flag (a a' : MonitoringAssignment) (db db' : DB) :
  MonitoringAssignment_save a db = (Ok a', db') ->
  In a' (assignments db')
  /\ date a' = date a
  /\ is_monday_assignment a' = (weekday (date a') =? 0).
Proof.
  intros H. apply save_ok in H as (a0 & Hpre & Hsave).
  apply pre_save_spec in Hpre as (_ & Hd & _ & _ & _ & _ & Hm & _).
  apply Model_save_ok in Hsave as (-> & Hin & _).
  destruct (set_id_fields (id a') a0) as (Ed & _ & _ & _ & _ & _ & Em & _).
  split; [exact Hin|]. rewrite Ed, Em, Hd. now split.
Qed.

(** ** Database invariants kept by every operation *)

(** All writes to the assignment table go through
    [MonitoringAssignment.save]; an invariant of the database that a save
    keeps is therefore kept by every operation, whether it returns or
    raises. *)
Section Preservation.

Variable Inv : DB -> Prop.
Hypothesis save_keeps :
  forall a db, Inv db -> Inv (snd (MonitoringAssignment_save a db)).

Lemma keeps_ret {S A} (proj : S -> DB) (a : A) : keeps Inv proj (ret a).
Proof. intros s H. exact H. Qed.

Lemma keeps_raise {S A} (proj : S -> DB) (e : Exn) : keeps Inv proj (@raise S A e).
Proof. intros s H. exact H. Qed.

Lemma keeps_lift {S A} (proj : S -> DB) (r : result A) : keeps Inv proj (lift r).
Proof. intros s H. exact H. Qed.

Lemma keeps_get {S} (proj : S -> DB) : keeps Inv proj (@get S).
Proof. intros s H. exact H. Qed.

Lemma keeps_get_self {X} : keeps Inv snd (@get_self X).
Proof. intros s H. exact H. Qed.

Lemma keeps_put_self {X} (x : X) : keeps Inv snd (put_self x).
Proof. intros s H. exact H. Qed.

Lemma keeps_bind {S A B} (proj : S -> DB) (m : M S A) (k : A -> M S B) :
  keeps Inv proj m -> (forall a, keeps Inv proj (k a)) -> keeps Inv proj (bind m k).
Proof.
  intros Hm Hk s H. unfold bind. specialize (Hm s H).
  destruct (m s) as [[a|e] s1]; cbn in *; [now apply Hk | exact Hm].
Qed.

Lemma keeps_on_db {X A} (m : M DB A) :
  keeps Inv (fun db => db) m -> keeps Inv snd (@on_db X A m).
Proof.
  intros Hm s H. unfold on_db. specialize (Hm (snd s) H).
  destruct (m (snd s)) as [r db1]. exact Hm.
Qed.

Lemma keeps_atomic {X A} (m : M (X * DB) A) : keeps Inv snd m -> keeps Inv snd (atomic m).
Proof.
  intros Hm s H. unfold atomic. specialize (Hm s H).
  destruct (m s) as [[a|e] s1]; cbn in *; [exact Hm | exact H].
Qed.

Lemma keeps_save (a : MonitoringAssignment) :
  keeps Inv (fun db => db) (MonitoringAssignment_save a).
Proof. intros db H. now apply save_keeps. Qed.

Lemma keeps_create (a : MonitoringAssignment) :
  keeps Inv (fun db => db) (objects_create a).
Proof. apply keeps_save. Qed.

Lemma keeps_objects_get (pk : Z) : keeps Inv (fun db => db) (objects_get pk).
Proof.
  intros db H. unfold objects_get.
  destruct (find (has_pk pk) (assignments db)); exact H.
Qed.

Ltac keeps_step :=
  match goal with
  | |- keeps _ _ (bind _ _) => apply keeps_bind; [|intros ?]
  | |- keeps _ _ (ret _) => apply keeps_ret
  | |- keeps _ _ (raise _) => apply keeps_raise
  | |- keeps _ _ (lift _) => apply keeps_lift
  | |- keeps _ _ get => apply keeps_get
  | |- keeps _ _ get_self => apply keeps_get_self
  | |- keeps _ _ (put_self _) => apply keeps_put_self
  | |- keeps _ _ (on_db _) => apply keeps_on_db
  | |- keeps _ _ (atomic _) => apply keeps_atomic
  | |- keeps _ _ (objects_create _) => apply keeps_create
  | |- keeps _ _ (objects_get _) => apply keeps_objects_get
  | |- keeps _ _ (MonitoringAssignment_save _) => apply keeps_save
  | |- keeps _ _ (if ?c then _ else _) => destruct c
  | |- keeps _ _ (match ?x with _ => _ end) => destruct x
  | |- keeps _ _ (let (_, _) := ?x in _) => destruct x
  end.

Lemma keeps_approve_swap (approver : Analyst) (now : Z) :
  keeps Inv snd (approve_swap approver now).
Proof. unfold approve_swap. repeat keeps_step. Qed.

Lemma keeps_arrange_loop (self : LeaveRequest) (coverage : Analyst) rows :
  keeps Inv (fun db => db) (arrange_loop self coverage rows).
Proof.
  induction rows as [|r rows IH]; cbn [arrange_loop]; repeat keeps_step.
  exact IH.
Qed.

Lemma keeps_assess_impact : keeps Inv snd assess_impact.
Proof. unfold assess_impact. repeat keeps_step. Qed.

Lemma keeps_approve_leave (approver : Analyst) (cov : option Analyst) (now : Z) :
  keeps Inv snd (approve_leave approver cov now).
Proof.
  unfold approve_leave, _arrange_coverage.
  repeat first [apply keeps_assess_impact | apply keeps_arrange_loop | keeps_step].
Qed.

Lemma keeps_generate_loop (pat : SchedulePattern) (n : nat) :
  forall current_date created,
    keeps Inv (fun db => db) (generate_loop pat n current_date created).
Proof.
  induction n as [|n IH]; intros c k; cbn [generate_loop];
    repeat first [apply IH | keeps_step].
Qed.

Lemma keeps_generate_schedule (start_date end_date now : Z) :
  keeps Inv snd (generate_schedule start_date end_date now).
Proof.
  unfold generate_schedule.
  repeat first [apply keeps_generate_loop | keeps_step].
Qed.

End Preservation.

(** ** The uniqueness invariant of the assignment table *)

Section UniqueFacts.

Lemma same_key_iff (a b : MonitoringAssignment) :
  same_key a b = true <-> key a = key b.
Proof.
  unfold same_key, key. rewrite andb_true_iff, !Z.eqb_eq.
  split; [intros [-> ->]; reflexivity | intros [= -> ->]; now split].
Qed.

Lemma has_pk_iff (pk : Z) (r : MonitoringAssignment) :
  has_pk pk r = true <-> id r = Some pk.
Proof.
  unfold has_pk. destruct (id r) as [i|].
  - rewrite Z.eqb_eq. split; congruence.
  - split; discriminate.
Qed.

Lemma key_absent (a : MonitoringAssignment) rows :
  existsb (same_key a) rows = false -> ~ In (key a) (map key rows).
Proof.
  intros H Hin. apply in_map_iff in Hin as (r & Hk & Hr).
  assert (existsb (same_key a) rows = true); [|congruence].
  apply existsb_exists. exists r. split; [exact Hr|]. now apply same_key_iff.
Qed.

Lemma key_present (a b : MonitoringAssignment) rows :
  In b rows -> key a = key b -> existsb (same_key a) rows = true.
Proof.
  intros Hin Hk. apply existsb_exists. exists b. split; [exact Hin|].
  now apply same_key_iff.
Qed.

Lemma pk_absent (pk : Z) rows :
  existsb (has_pk pk) rows = false -> ~ In (Some pk) (map id rows).
Proof.
  intros H Hin. apply in_map_iff in Hin as (r & Hk & Hr).
  assert (existsb (has_pk pk) rows = true); [|congruence].
  apply existsb_exists. exists r. split; [exact Hr|]. now apply has_pk_iff.
Qed.

Lemma NoDup_snoc {A} (l : list A) (x : A) :
  NoDup l -> ~ In x l -> NoDup (l ++ [x]).
Proof.
  induction l as [|y l IH]; intros Hn Hx; cbn.
  - constructor; [intros []|constructor].
  - inversion Hn as [|? ? Hy Hl]; subst. constructor.
    + rewrite in_app_iff. intros [H|[H|[]]]; [now apply Hy|].
      apply Hx. now left.
    + apply IH; [exact Hl|]. intros H. apply Hx. now right.
Qed.

(** An update keeps the primary keys of the table ... *)
Lemma replace_pk_ids (pk : Z) (self : MonitoringAssignment) rows :
  id self = Some pk -> map id (replace_pk pk self rows) = map id rows.
Proof.
  intros Hid. unfold replace_pk. rewrite map_map. apply map_ext_in.
  intros r _. destruct (has_pk pk r) eqn:Hr; [|reflexivity].
  apply has_pk_iff in Hr. congruence.
Qed.

Lemma replace_pk_absent (pk : Z) (self : MonitoringAssignment) rows :
  ~ In (Some pk) (map id rows) -> replace_pk pk self rows = rows.
Proof.
  intros H. unfold replace_pk. rewrite <- (map_id rows) at 2.
  apply map_ext_in. intros r Hr.
  destruct (has_pk pk r) eqn:E; [|reflexivity].
  exfalso. apply H. apply in_map_iff. exists r. split; [|exact Hr].
  now apply has_pk_iff.
Qed.

(** ... and keeps the keys distinct when no other row has the new key. *)
Lemma replace_pk_keys (pk : Z) (self : MonitoringAssignment) rows :
  NoDup (map id rows) ->
  NoDup (map key rows) ->
  existsb (fun r => same_key self r && negb (has_pk pk r))%bool rows = false ->
  NoDup (map key (replace_pk pk self rows)).
Proof.
  intros Hids Hkeys Hc.
  assert (Hother : forall r, In r rows -> has_pk pk r = false -> key self <> key r).
  { intros r Hr Hp Hk.
    assert (existsb (fun r => same_key self r && negb (has_pk pk r))%bool rows = true);
      [|congruence].
    apply existsb_exists. exists r. split; [exact Hr|].
    rewrite Hp. cbn. rewrite andb_true_r. now apply same_key_iff. }
  clear Hc.
  induction rows as [|r rows IH]; cbn; [constructor|].
  inversion Hids as [|? ? Hi Hids']; inversion Hkeys as [|? ? Hk Hkeys']; subst.
  destruct (has_pk pk r) eqn:Hr.
  - apply has_pk_iff in Hr. rewrite Hr in Hi.
    fold (replace_pk pk self rows). rewrite replace_pk_absent by exact Hi.
    constructor; [|exact Hkeys'].
    intros Hin. apply in_map_iff in Hin as (r' & Hk' & Hr').
    apply (Hother r'); [now right| |now symmetry].
    destruct (has_pk pk r') eqn:E; [|reflexivity].
    exfalso. apply Hi. apply in_map_iff. exists r'. split; [|exact Hr'].
    now apply has_pk_iff.
  - constructor.
    + fold (replace_pk pk self rows). intros Hin.
      apply in_map_iff in Hin as (r' & Hk' & Hr').
      unfold replace_pk in Hr'. apply in_map_iff in Hr' as (r0 & E & Hr0).
      destruct (has_pk pk r0); subst r'.
      * apply (Hother r); [now left|exact Hr|exact Hk'].
      * apply Hk. apply in_map_iff. now exists r0.
    + apply IH; [exact Hids'|exact Hkeys'|].
      intros r' Hr'. apply Hother. now right.
Qed.

(** A save keeps the table well formed, whether it is accepted or
    rejected. *)
Lemma save_keeps_wf (a : MonitoringAssignment) (db : DB) :
  db_wf db -> db_wf (snd (MonitoringAssignment_save a db)).
Proof.
  intros (Hkeys & Hids & Hbound).
  unfold MonitoringAssignment_save, bind, lift.
  destruct (pre_save a) as [a0|e0]; cbn; [|now repeat split].
  destruct (Model_save_outcome a0 db) as [|pk Hk Hpk|pk Hid Hpk Hc]; cbn.
  - now repeat split.
  - assert (Hfresh : ~ In (Some pk) (map id (assignments db))).
    { destruct Hpk as [[_ ->]|[_ Hpk]]; [|now apply pk_absent].
      intros Hin. apply in_map_iff in Hin as (r & Hr & Hin).
      rewrite Forall_forall in Hbound.
      destruct (Hbound r Hin) as (pk' & E & Hlt). rewrite Hr in E.
      injection E as <-. lia. }
    unfold db_wf, unique_together; cbn. rewrite !map_app; cbn.
    repeat split.
    + apply NoDup_snoc; [exact Hkeys|]. now apply key_absent.
    + now apply NoDup_snoc.
    + apply Forall_app. split.
      * eapply Forall_impl; [|exact Hbound]. cbn.
        intros r (pk' & E & Hlt). exists pk'. split; [exact E|lia].
      * constructor; [|constructor]. exists pk. cbn. split; [reflexivity|lia].
  - unfold db_wf, unique_together; cbn. repeat split.
    + now apply replace_pk_keys.
    + now rewrite replace_pk_ids.
    + apply existsb_exists in Hpk as (r0 & Hr0 & Hp0).
      apply has_pk_iff in Hp0. rewrite Forall_forall in Hbound.
      destruct (Hbound r0 Hr0) as (pk' & E & Hlt).
      assert (pk' = pk) by congruence. subst pk'.
      apply Forall_forall. intros r Hr.
      unfold replace_pk in Hr. apply in_map_iff in Hr as (r1 & E1 & Hr1).
      destruct (has_pk pk r1); subst r.
      * now exists pk.
      * now apply Hbound.
Qed.

End UniqueFacts.

Section WindowKnown.

Lemma pre_save_total (a : MonitoringAssignment) :
  window_known a -> exists a0, pre_save a = Ok a0.
Proof.
  unfold pre_save. intros [[Hs He]|[[s e] Hw]].
  - destruct (window_start a); [|contradiction].
    destruct (window_end a); [|contradiction].
    eexists; reflexivity.
  - rewrite Hw.
    destruct (window_start a); [destruct (window_end a)|];
      eexists; reflexivity.
Qed.

Lemma window_known_set_id (v : option Z) (a : MonitoringAssignment) :
  window_known a -> window_known (set_id v a).
Proof. intros H. exact H. Qed.

(** A create whose key is present raises and writes nothing; the error
    is the duplicate-key one as soon as the window is known. *)
Lemma create_duplicate (a b : MonitoringAssignment) (db : DB) :
  In b (assignments db) -> key a = key b ->
  (exists e, objects_create a db = (Raise e, db))
  /\ (window_known a -> objects_create a db = (Raise IntegrityError, db)).
Proof.
  intros Hin Hk.
  assert (Hgen : forall a0, pre_save (set_id None a) = Ok a0 ->
                 Model_save a0 db = (Raise IntegrityError, db)).
  { intros a0 Hpre. apply pre_save_spec in Hpre as (Hid & Hd & Hmt & _).
    cbn in Hid, Hd, Hmt.
    unfold Model_save, insert_row. rewrite Hid.
    replace (existsb (same_key a0) (assignments db)) with true; [reflexivity|].
    symmetry. apply key_present with b; [exact Hin|].
    unfold key in *. now rewrite Hd, Hmt. }
  unfold objects_create, MonitoringAssignment_save, bind, lift. split.
  - destruct (pre_save (set_id None a)) as [a0|e0] eqn:Hpre.
    + exists IntegrityError. now apply Hgen.
    + now exists e0.
  - intros Hw. destruct (pre_save_total _ (window_known_set_id None a Hw)) as (a0 & Hpre).
    rewrite Hpre. now apply Hgen.
Qed.

Lemma filter_key_absent (a : MonitoringAssignment) rows :
  ~ In (key a) (map key rows) -> filter (same_key a) rows = [].
Proof.
  induction rows as [|r rows IH]; intros Hnot; [reflexivity|]. cbn.
  destruct (same_key a r) eqn:Es.
  - apply same_key_iff in Es. exfalso. apply Hnot. left. congruence.
  - apply IH. intros H. apply Hnot. now right.
Qed.

Lemma filter_unique_key (a b : MonitoringAssignment) rows :
  NoDup (map key rows) -> In b rows -> key a = key b ->
  filter (same_key a) rows = [b].
Proof.
  intros Hn Hin Hk. induction rows as [|r rows IH]; [destruct Hin|].
  cbn in Hn. inversion Hn as [|? ? Hr Hn']; subst. cbn.
  destruct Hin as [->|Hin].
  - replace (same_key a b) with true by (symmetry; now apply same_key_iff).
    rewrite filter_key_absent; [reflexivity|]. now rewrite Hk.
  - destruct (same_key a r) eqn:Es.
    + apply same_key_iff in Es. exfalso. apply Hr.
      apply in_map_iff. exists b. split; [congruence|exact Hin].
    + now apply IH.
Qed.

End WindowKnown.

(** C3.  In a well-formed assignment table at most one row exists per
    (date, monitoring type): a create whose key is already present raises
    (the duplicate-key [IntegrityError] whenever the window of the new
    instance is given or computable), the table is left as it was and the
    first row is the only one under that key; and a save, a create,
    [generate_schedule], [approve_swap] and [approve_leave] all leave the
    table well formed, whether they return or raise. *)
Theorem C3_unique_assignment_per_date_and_kind (db : DB) :
  db_wf db ->
  unique_together db
  /\ (forall a b, In b (assignments db) -> key a = key b ->
        (exists e, objects_create a db = (Raise e, db))
        /\ (window_known a -> objects_create a db = (Raise IntegrityError, db))
        /\ filter (same_key a) (assignments db) = [b])
  /\ (forall a, db_wf (snd (MonitoringAssignment_save a db)))
  /\ (forall a, db_wf (snd (objects_create a db)))
  /\ (forall g s e now, db_wf (snd (snd (generate_schedule s e now (g, db)))))
  /\ (forall req approver now, db_wf (snd (snd (approve_swap approver now (req, db)))))
  /\ (forall req approver cov now,
        db_wf (snd (snd (approve_leave approver cov now (req, db))))).
Proof.
  intros Hwf. repeat apply conj.
  - exact (proj1 Hwf).
  - intros a b Hin Hk. destruct (create_duplicate a b db Hin Hk) as [H1 H2].
    repeat apply conj; [exact H1|exact H2|].
    apply filter_unique_key; [exact (proj1 Hwf)|exact Hin|exact Hk].
  - intros a. now apply save_keeps_wf.
  - intros a. now apply save_keeps_wf.
  - intros g s e now.
    exact (keeps_generate_schedule db_wf save_keeps_wf s e now (g, db) Hwf).
  - intros req approver now.
    exact (keeps_approve_swap db_wf save_keeps_wf approver now (req, db) Hwf).
  - intros req approver cov now.
    exact (keeps_approve_leave db_wf save_keeps_wf approver cov now (req, db) Hwf).
Qed.

(** Evaluation of the invariants on a concrete table. *)
Ltac concrete_NoDup :=
  vm_compute;
  repeat (constructor; [cbn; intuition congruence|]); constructor.

Ltac concrete_wf :=
  repeat apply conj;
  [ concrete_NoDup
  | concrete_NoDup
  | vm_compute; repeat constructor; eexists; (split; [reflexivity|reflexivity]) ].

Lemma C3_witness_two_days :
  db_wf InitialData.two_days_db
  /\ objects_create
       (new_assignment InitialData.monday InitialData.EM InitialData.natnael
          None None "SCHEDULED" "")
       InitialData.two_days_db
     = (Raise IntegrityError, InitialData.two_days_db)
  /\ db_wf (snd (snd (generate_schedule InitialData.monday InitialData.tuesday 1
                        (InitialData.generator, InitialData.two_days_db)))).
Proof.
  assert (Hwf : db_wf InitialData.two_days_db) by concrete_wf.
  split; [exact Hwf|].
  destruct (C3_unique_assignment_per_date_and_kind InitialData.two_days_db Hwf)
    as (_ & Hdup & _ & _ & Hgen & _).
  split; [|apply Hgen].
  refine (proj1 (proj2 (Hdup _ (nth 0 (assignments InitialData.two_days_db)
                                   (new_assignment 0 InitialData.EM InitialData.ebisa
                                      None None "" "")) _ _)) _).
  - vm_compute. left. reflexivity.
  - vm_compute. reflexivity.
  - right. eexists. vm_compute. reflexivity.
Defined.

(** ** The Monday flag *)

Lemma save_keeps_monday_flags (a : MonitoringAssignment) (db : DB) :
  monday_flags_ok db -> monday_flags_ok (snd (MonitoringAssignment_save a db)).
Proof.
  unfold monday_flags_ok. intros H.
  destruct (MonitoringAssignment_save a db) as [[a'|e] db'] eqn:Hs; cbn.
  - pose proof (save_sets_monday_flag _ _ _ _ Hs) as (_ & _ & Hflag).
    apply save_ok in Hs as (a0 & _ & Hsave).
    pose proof (Model_save_outcome a0 db) as O. rewrite Hsave in O.
    inversion O; subst; cbn.
    + apply Forall_app. split; [exact H|]. constructor; [exact Hflag|constructor].
    + apply Forall_forall. intros r Hr. unfold replace_pk in Hr.
      apply in_map_iff in Hr as (r0 & E & Hr0).
      rewrite Forall_forall in H.
      destruct (has_pk pk r0); subst r; [exact Hflag|now apply H].
  - apply save_raise in Hs. now subst db'.
Qed.

(** C10.  After every successful save the stored assignment keeps its
    date and its [is_monday_assignment] flag is true exactly when that
    date is a Monday (weekday 0), whatever value the caller supplied; and
    when every stored row satisfies this, it still does after a save, a
    create, [generate_schedule], [approve_swap] and [approve_leave]. *)
Theorem C10_monday_flag_recomputed_on_save (db : DB) :
  monday_flags_ok db ->
  (forall a a' db',
      MonitoringAssignment_save a db = (Ok a', db') ->
      In a' (assignments db') /\ date a' = date a
      /\ is_monday_assignment a' = (weekday (date a') =? 0))
  /\ (forall a, monday_flags_ok (snd (MonitoringAssignment_save a db)))
  /\ (forall a, monday_flags_ok (snd (objects_create a db)))
  /\ (forall g s e now,
        monday_flags_ok (snd (snd (generate_schedule s e now (g, db)))))
  /\ (forall req approver now,
        monday_flags_ok (snd (snd (approve_swap approver now (req, db)))))
  /\ (forall req approver cov now,
        monday_flags_ok (snd (snd (approve_leave approver cov now (req, db))))).
Proof.
  intros Hok. repeat apply conj.
  - intros a a' db' Hs. exact (save_sets_monday_flag _ _ _ _ Hs).
  - intros a. now apply save_keeps_monday_flags.
  - intros a. now apply save_keeps_monday_flags.
  - intros g s e now.
    exact (keeps_generate_schedule _ save_keeps_monday_flags s e now (g, db) Hok).
  - intros req approver now.
    exact (keeps_approve_swap _ save_keeps_monday_flags approver now (req, db) Hok).
  - intros req approver cov now.
    exact (keeps_approve_leave _ save_keeps_monday_flags approver cov now (req, db) Hok).
Qed.

Lemma C10_witness_mislabelled_wednesday :
  monday_flags_ok InitialData.two_days_db
  /\ monday_flags_ok
       (snd (MonitoringAssignment_save mislabelled_wednesday InitialData.two_days_db))
  /\ map is_monday_assignment
       (assignments
          (snd (MonitoringAssignment_save mislabelled_wednesday InitialData.two_days_db)))
     = [true; true; false; false; false].
Proof.
  assert (Hok : monday_flags_ok InitialData.two_days_db)
    by (vm_compute; repeat constructor).
  split; [exact Hok|].
  split; [|vm_compute; reflexivity].
  apply (C10_monday_flag_recomputed_on_save InitialData.two_days_db Hok).
Defined.

(** ** Approving a swap that is not pending *)

(** C9.  When the status of a swap request is not PENDING, [approve_swap]
    raises [ValueError] and changes nothing: the database (hence every
    assignment, the original one included) and the request are as before,
    and no reciprocal assignment is created. *)
Theorem C9_approve_swap_requires_pending
  (self : ShiftSwapRequest) (approver : Analyst) (now : Z) (db : DB) :
  swap_status self <> "PENDING" ->
  approve_swap approver now (self, db)
  = (Raise (ValueError "Swap request is not pending"), (self, db)).
Proof.
  intros Hst. unfold approve_swap, bind, get_self. cbn [fst snd].
  destruct (String.eqb_spec (swap_status self) "PENDING") as [E|_];
    [contradiction|reflexivity].
Qed.

Lemma C9_witness_already_approved :
  approve_swap InitialData.natnael 5
    (mk_ShiftSwapRequest 1 InitialData.natnael "APPROVED" "exam" None
       InitialData.nurahmed None None,
     InitialData.two_days_db)
  = (Raise (ValueError "Swap request is not pending"),
     (mk_ShiftSwapRequest 1 InitialData.natnael "APPROVED" "exam" None
        InitialData.nurahmed None None,
      InitialData.two_days_db)).
Proof.
  apply C9_approve_swap_requires_pending. cbn. discriminate.
Defined.

(** ** The extended-window flag *)

(** C8, as stated, fails: saved for Tuesday 2024-01-09 with the type above,
    the assignment has a computed duration of 15 hours, above the 14-hour
    threshold of the EM kind, and [is_extended_window] is false. *)
Lemma C8_counterexample_tuesday :
  exists a' db',
    MonitoringAssignment_save
      (new_assignment InitialData.tuesday EM_from_16 InitialData.gezagn
         None None "CONFIRMED" "")
      InitialData.empty_db = (Ok a', db')
    /\ code (monitoring_type a') = "EM"
    /\ duration_hours a' = Some 1500
    /\ duration_gt a' 14 = true
    /\ is_extended_window a' = false.
Proof. do 2 eexists. vm_compute. repeat split. Qed.

(** C8 (amended).  For every assignment saved for a Monday, the stored
    duration is the rounded length of its window and [is_extended_window]
    is true when that duration exceeds 14 hours for the EM kind or 24
    hours for the DM kind. *)
Theorem C8_extended_window_on_monday
  (a a' : MonitoringAssignment) (db db' : DB) :
  MonitoringAssignment_save a db = (Ok a', db') ->
  weekday (date a') = 0 ->
  (code (monitoring_type a') = "EM" /\ duration_gt a' 14 = true)
  \/ (code (monitoring_type a') = "DM" /\ duration_gt a' 24 = true) ->
  (exists s e, window_start a' = Some s /\ window_end a' = Some e
               /\ duration_hours a' = Some (round_hours (total_seconds s e)))
  /\ is_extended_window a' = true.
Proof.
  intros Hs Hmon Hthr. apply save_ok in Hs as (a0 & Hpre & Hsave).
  apply pre_save_spec in Hpre as (_ & Hd & Hmt & _ & _ & _ & _ & Hdur & Hext).
  apply Model_save_ok in Hsave as (E & _).
  assert (Hdg : forall h, duration_gt a' h = duration_gt a0 h)
    by (intros h; rewrite E; reflexivity).
  rewrite E in Hmon, Hthr |- *. cbn in Hmon, Hthr |- *.
  rewrite Hd in Hmon. rewrite Hmt in Hthr.
  split; [exact Hdur|]. apply Hext; [exact Hmon|].
  change (duration_gt (set_id (id a') a0)) with (duration_gt a0) in Hthr.
  destruct Hthr as [[Hc Hg]|[Hc Hg]]; rewrite Hc, Hg; reflexivity.
Qed.

Lemma C8_witness_monday :
  exists a' db',
    MonitoringAssignment_save
      (new_assignment InitialData.monday EM_from_16 InitialData.gezagn
         None None "CONFIRMED" "")
      InitialData.empty_db = (Ok a', db')
    /\ duration_hours a' = Some 4900
    /\ is_extended_window a' = true.
Proof.
  set (a := new_assignment InitialData.monday EM_from_16 InitialData.gezagn
              None None "CONFIRMED" "").
  set (r := MonitoringAssignment_save a InitialData.empty_db).
  exists (match fst r with Ok x => x | Raise _ => a end), (snd r).
  assert (Hs : r = (Ok (match fst r with Ok x => x | Raise _ => a end), snd r))
    by (vm_compute; reflexivity).
  split; [exact Hs|]. split; [vm_compute; reflexivity|].
  refine (proj2 (C8_extended_window_on_monday a _ InitialData.empty_db _ Hs _ _)).
  - vm_compute. reflexivity.
  - left. split; vm_compute; reflexivity.
Defined.

(** ** The Monday window *)

Section MondayWindow.

Lemma combine_ok (d h m : Z) :
  0 <= h <= 23 -> 0 <= m <= 59 -> combine d h m = Ok (mk_datetime d h m).
Proof.
  intros Hh Hm. unfold combine.
  replace ((0 <=? h) && (h <=? 23))%bool with true
    by (symmetry; apply andb_true_intro; split; lia).
  replace ((0 <=? m) && (m <=? 59))%bool with true
    by (symmetry; apply andb_true_intro; split; lia).
  reflexivity.
Qed.

Variable mt : MonitoringType.
Variable d : Z.
Hypothesis start_17_00 : default_start_hour mt = 17 /\ default_start_minute mt = 0.
Hypothesis end_07_00 : default_end_hour mt = 7 /\ default_end_minute mt = 0.
Hypothesis extend_58 : monday_start_offset_hours mt = 58.
Hypothesis end_offset : monday_end_offset_hours mt < 41.
Hypothesis on_monday : weekday d = 0.

(** The window starts on the Saturday at 07:00 and is at least 48 hours
    long. *)
Lemma monday_window :
  exists w_end,
    get_time_window_for_date mt d = Ok (mk_datetime (d - 2) 7 0, w_end)
    /\ 48 * 3600 <= total_seconds (mk_datetime (d - 2) 7 0) w_end.
Proof.
  destruct start_17_00 as [Hsh Hsm]. destruct end_07_00 as [Heh Hem].
  unfold get_time_window_for_date.
  rewrite on_monday, Hsh, Hsm, Heh, Hem, extend_58.
  change (0 =? 0) with true. change (58 >? 0) with true.
  change (58 / 24) with 2. change (58 mod 24) with 10.
  change (17 - 10 <? 0) with false. change (17 - 10) with 7.
  cbn [andb]. rewrite combine_ok by lia.
  destruct (monday_end_offset_hours mt >? 0) eqn:Hpos.
  - apply Z.gtb_lt in Hpos.
    destruct (7 + monday_end_offset_hours mt >=? 24) eqn:Hc.
    + rewrite Z.geb_leb in Hc. apply Z.leb_le in Hc.
      rewrite combine_ok by lia. eexists. split; [reflexivity|].
      unfold total_seconds. cbn [dt_date dt_hour dt_minute]. lia.
    + rewrite Z.geb_leb in Hc. apply Z.leb_gt in Hc.
      rewrite combine_ok by lia. eexists. split; [reflexivity|].
      unfold total_seconds. cbn [dt_date dt_hour dt_minute]. lia.
  - rewrite combine_ok by lia. eexists. split; [reflexivity|].
    unfold total_seconds. cbn [dt_date dt_hour dt_minute]. lia.
Qed.

End MondayWindow.

Lemma date_absent_key_absent (a : MonitoringAssignment) (db : DB) :
  exists_for_date (date a) db = false ->
  existsb (same_key a) (assignments db) = false.
Proof.
  unfold exists_for_date. intros H.
  destruct (existsb (same_key a) (assignments db)) eqn:E; [|reflexivity].
  apply existsb_exists in E as (r & Hr & Hk).
  assert (existsb (fun a0 => date a0 =? date a) (assignments db) = true);
    [|congruence].
  apply existsb_exists. exists r. split; [exact Hr|].
  unfold same_key in Hk. apply andb_prop in Hk as [Hd _].
  apply Z.eqb_eq in Hd. rewrite Hd. apply Z.eqb_refl.
Qed.

(** C7.  For a monitoring kind (EM or DM) with default start 17:00,
    default end 07:00 and a Monday start extension of 58 hours, the window
    computed for a Monday starts on the Saturday before (two days earlier)
    at 07:00, which is 58 hours before Monday 17:00; and the assignment created with that window on a date that
    has no assignment yet is stored with that start, a duration above 14
    hours and [is_extended_window] true. *)
Theorem C7_monday_window_starts_saturday_07_00
  (mt : MonitoringType) (d : Z) (an : Analyst) (st nt : string) (db : DB) :
  default_start_hour mt = 17 /\ default_start_minute mt = 0 ->
  default_end_hour mt = 7 /\ default_end_minute mt = 0 ->
  monday_start_offset_hours mt = 58 ->
  monday_end_offset_hours mt < 41 ->
  code mt = "EM" \/ code mt = "DM" ->
  weekday d = 0 ->
  exists_for_date d db = false ->
  weekday (d - 2) = 5
  /\ total_seconds (mk_datetime (d - 2) 7 0) (mk_datetime d 17 0) = 58 * 3600
  /\ exists w_end a' db',
       get_time_window_for_date mt d = Ok (mk_datetime (d - 2) 7 0, w_end)
       /\ objects_create
            (new_assignment d mt an (Some (mk_datetime (d - 2) 7 0)) (Some w_end) st nt)
            db = (Ok a', db')
       /\ In a' (assignments db')
       /\ window_start a' = Some (mk_datetime (d - 2) 7 0)
       /\ window_end a' = Some w_end
       /\ duration_gt a' 14 = true
       /\ is_extended_window a' = true.
Proof.
  intros Hs He H58 Hoff Hcode Hmon Hfree. split.
  { unfold weekday in *.
    pose proof (Z.div_mod (d + 6) 7 ltac:(lia)) as E1.
    pose proof (Z.div_mod (d - 2 + 6) 7 ltac:(lia)) as E2.
    pose proof (Z.mod_pos_bound (d - 2 + 6) 7 ltac:(lia)). lia. }
  split.
  { unfold total_seconds. cbn [dt_date dt_hour dt_minute]. lia. }
  destruct (monday_window mt d Hs He H58 Hoff Hmon) as (w_end & Hw & Hlen).
  set (kw := new_assignment d mt an (Some (mk_datetime (d - 2) 7 0)) (Some w_end) st nt).
  destruct (pre_save_total (set_id None kw)) as (a0 & Hpre).
  { left. split; discriminate. }
  pose proof (pre_save_spec _ _ Hpre) as
    (Hid & Hd & Hmt & _ & _ & _ & _ & (s & e & Hws & Hwe & Hdur) & Hext).
  cbn in Hid, Hd, Hmt, Hext.
  assert (Ews : window_start a0 = Some (mk_datetime (d - 2) 7 0)
                /\ window_end a0 = Some w_end).
  { unfold pre_save in Hpre. cbn in Hpre.
    repeat match type of Hpre with
           | context [if ?c then _ else _] => destruct c
           end; injection Hpre as <-; split; reflexivity. }
  destruct Ews as [Ews Ewe].
  assert (s = mk_datetime (d - 2) 7 0) by congruence.
  assert (e = w_end) by congruence. subst s e.
  assert (Hgt24 : duration_gt a0 24 = true).
  { unfold duration_gt, hours_gt. rewrite Hdur. apply Z.gtb_lt.
    pose proof (round_hours_lower _ 48 Hlen). lia. }
  assert (Hgt14 : duration_gt a0 14 = true).
  { unfold duration_gt, hours_gt in *. rewrite Hdur in *.
    apply Z.gtb_lt. apply Z.gtb_lt in Hgt24. lia. }
  assert (Hx : is_extended_window a0 = true).
  { apply Hext; [exact Hmon|]. rewrite Hgt14, Hgt24.
    destruct Hcode as [-> | ->]; reflexivity. }
  exists w_end, (set_id (Some (next_id db)) a0),
    (set_assignments (assignments db ++ [set_id (Some (next_id db)) a0])
                     (Z.max (next_id db) (next_id db + 1)) db).
  split; [exact Hw|]. split.
  - fold kw. unfold objects_create, MonitoringAssignment_save, bind, lift.
    rewrite Hpre. unfold Model_save, insert_row. rewrite Hid.
    rewrite date_absent_key_absent; [reflexivity|]. now rewrite Hd.
  - cbn. repeat apply conj; try assumption.
    apply in_or_app. right. now left.
Qed.

Lemma C7_witness_2024_01_08 :
  Calendar.date 2024 1 8 - 2 = Calendar.date 2024 1 6
  /\ weekday (Calendar.date 2024 1 6) = 5
  /\ total_seconds (mk_datetime (Calendar.date 2024 1 6) 7 0)
                   (mk_datetime (Calendar.date 2024 1 8) 17 0) = 58 * 3600
  /\ exists w_end a' db',
       get_time_window_for_date InitialData.EM (Calendar.date 2024 1 8)
       = Ok (mk_datetime (Calendar.date 2024 1 6) 7 0, w_end)
       /\ objects_create
            (new_assignment (Calendar.date 2024 1 8) InitialData.EM
               InitialData.nurahmed
               (Some (mk_datetime (Calendar.date 2024 1 6) 7 0)) (Some w_end)
               "CONFIRMED" "")
            InitialData.empty_db = (Ok a', db')
       /\ In a' (assignments db')
       /\ window_start a' = Some (mk_datetime (Calendar.date 2024 1 6) 7 0)
       /\ window_end a' = Some w_end
       /\ duration_gt a' 14 = true
       /\ is_extended_window a' = true.
Proof.
  split; [reflexivity|].
  change (Calendar.date 2024 1 6) with (Calendar.date 2024 1 8 - 2).
  apply (C7_monday_window_starts_saturday_07_00 InitialData.EM
           (Calendar.date 2024 1 8) InitialData.nurahmed "CONFIRMED" ""
           InitialData.empty_db).
  - split; reflexivity.
  - split; reflexivity.
  - reflexivity.
  - reflexivity.
  - left. reflexivity.
  - reflexivity.
  - reflexivity.
Defined.

(** ** Schedule generation *)

Section GenerateFacts.

Variable pat : SchedulePattern.

Lemma generate_loop_S (n : nat) (c k : Z) (db : DB) :
  generate_loop pat (S n) c k db =
  if exists_for_date c db then generate_loop pat n (c + 1) k db
  else match generate_day pat c db with
       | (Ok _, db2) => generate_loop pat n (c + 1) (k + 1 + 1) db2
       | (Raise e, db2) => (Raise e, db2)
       end.
Proof.
  cbn [generate_loop]. unfold generate_day, bind, get, lift, raise, ret.
  destruct (exists_for_date c db); [reflexivity|].
  destruct (get_assignments_for_date pat c) as [[em dm]|]; [|reflexivity].
  destruct (analyst_at em db); [|reflexivity].
  destruct (analyst_at dm db); [|reflexivity].
  destruct (type_with_code "EM" db); [|reflexivity].
  destruct (type_with_code "DM" db); [|reflexivity].
  destruct (get_time_window_for_date m c) as [[? ?]|]; [|reflexivity].
  destruct (get_time_window_for_date m0 c) as [[? ?]|]; [|reflexivity].
  destruct (objects_create _ db) as [[?|?] db1]; [|reflexivity].
  destruct (objects_create _ db1) as [[?|?] db2]; reflexivity.
Qed.

(** A create either raises and writes nothing, or appends one row with
    the date it was given. *)
Lemma create_outcome (kw : MonitoringAssignment) (db : DB) :
  (exists e, objects_create kw db = (Raise e, db))
  \/ (exists row n,
        objects_create kw db
        = (Ok row, set_assignments (assignments db ++ [row]) n db)
        /\ date row = date kw).
Proof.
  unfold objects_create, MonitoringAssignment_save, bind, lift.
  destruct (pre_save (set_id None kw)) as [a0|e0] eqn:Hpre; [|left; now exists e0].
  apply pre_save_spec in Hpre as (Hid & Hd & _). cbn in Hid, Hd.
  unfold Model_save, insert_row. rewrite Hid.
  destruct (existsb (same_key a0) (assignments db)).
  - left. now exists IntegrityError.
  - right. do 2 eexists. split; [reflexivity|exact Hd].
Qed.

(** One generated date: nothing but rows of that date is appended, and
    exactly two of them when the body returns. *)
Lemma generate_day_outcome (c : Z) (db db' : DB) (r : result unit) :
  generate_day pat c db = (r, db') ->
  exists new,
    assignments db' = assignments db ++ new
    /\ Forall (fun a => date a = c) new
    /\ (forall u, r = Ok u -> len new = 2).
Proof.
  unfold generate_day, bind, get, lift, raise, ret.
  assert (Hnil : forall (r0 : result unit),
             (r0, db) = (r, db') ->
             (forall u, r0 <> Ok u) ->
             exists new, assignments db' = assignments db ++ new
                         /\ Forall (fun a => date a = c) new
                         /\ (forall u, r = Ok u -> len new = 2)).
  { intros r0 [= <- <-] Hr. exists []. rewrite app_nil_r.
    repeat split; [constructor|]. intros u E. now destruct (Hr u). }
  destruct (get_assignments_for_date pat c) as [[em dm]|];
    [|intros H; eapply Hnil; [exact H|discriminate]].
  destruct (analyst_at em db);
    [|intros H; eapply Hnil; [exact H|discriminate]].
  destruct (analyst_at dm db);
    [|intros H; eapply Hnil; [exact H|discriminate]].
  destruct (type_with_code "EM" db);
    [|intros H; eapply Hnil; [exact H|discriminate]].
  destruct (type_with_code "DM" db);
    [|intros H; eapply Hnil; [exact H|discriminate]].
  destruct (get_time_window_for_date m c) as [[? ?]|];
    [|intros H; eapply Hnil; [exact H|discriminate]].
  destruct (get_time_window_for_date m0 c) as [[? ?]|];
    [|intros H; eapply Hnil; [exact H|discriminate]].
  match goal with
  | |- context [objects_create ?kw db] =>
    destruct (create_outcome kw db) as [[e1 ->]|(row1 & n1 & -> & Hd1)]
  end; [intros H; eapply Hnil; [exact H|discriminate]|].
  match goal with
  | |- context [objects_create ?kw ?db1] =>
    destruct (create_outcome kw db1) as [[e2 ->]|(row2 & n2 & -> & Hd2)]
  end; cbn [assignments set_assignments date new_assignment] in *.
  - intros [= <- <-]. exists [row1]. cbn.
    repeat split; [constructor; [exact Hd1|constructor]|discriminate].
  - intros [= <- <-]. exists [row1; row2]. cbn. rewrite <- app_assoc.
    repeat split. repeat constructor; assumption.
Qed.

End GenerateFacts.

Section GenerateLoopFacts.

Variable pat : SchedulePattern.

Lemma exists_for_date_app (d : Z) (db db' : DB) new :
  assignments db' = assignments db ++ new ->
  exists_for_date d db' =
  (exists_for_date d db || existsb (fun a => date a =? d) new)%bool.
Proof. unfold exists_for_date. intros ->. apply existsb_app. Qed.

Lemma len_app {A} (l1 l2 : list A) : len (l1 ++ l2) = len l1 + len l2.
Proof. unfold len. rewrite length_app. lia. Qed.

(** The loop only appends rows, for dates of the range that had no
    assignment, and counts them. *)
Lemma generate_loop_appends (n : nat) :
  forall c k db r db',
    generate_loop pat n c k db = (r, db') ->
    exists new,
      assignments db' = assignments db ++ new
      /\ Forall (fun a => exists_for_date (date a) db = false
                          /\ c <= date a < c + Z.of_nat n) new
      /\ (forall k', r = Ok k' -> k' = k + len new).
Proof.
  induction n as [|n IH]; intros c k db r db' H.
  - cbn in H. injection H as <- <-. exists []. rewrite app_nil_r.
    repeat split; [constructor|]. intros k' [= <-]. cbn. lia.
  - rewrite generate_loop_S in H.
    destruct (exists_for_date c db) eqn:Hc.
    + destruct (IH _ _ _ _ _ H) as (new & E & Hnew & Hk).
      exists new. repeat split; [exact E| |exact Hk].
      eapply Forall_impl; [|exact Hnew]. cbn. intros a [? ?]. split; [assumption|lia].
    + destruct (generate_day pat c db) as [[u|e] db2] eqn:Hday;
        destruct (generate_day_outcome pat c db _ _ Hday) as (new1 & E1 & Hd1 & Hl1).
      * destruct (IH _ _ _ _ _ H) as (new2 & E2 & Hnew2 & Hk2).
        exists (new1 ++ new2). rewrite E2, E1, app_assoc.
        repeat split.
        -- apply Forall_app. split.
           ++ eapply Forall_impl; [|exact Hd1]. cbn. intros a ->.
              split; [exact Hc|lia].
           ++ eapply Forall_impl; [|exact Hnew2]. cbn. intros a [Ha ?].
              split; [|lia].
              rewrite (exists_for_date_app (date a) db db2 new1 E1) in Ha.
              now apply orb_false_elim in Ha.
        -- intros k' Hr. rewrite (Hk2 k' Hr), len_app, (Hl1 u eq_refl). lia.
      * injection H as <- <-. exists new1. repeat split; [exact E1| |discriminate].
        eapply Forall_impl; [|exact Hd1]. cbn. intros a ->. split; [exact Hc|lia].
Qed.

Lemma generate_loop_monotone (n : nat) (c k : Z) (db db' : DB) r (d : Z) :
  generate_loop pat n c k db = (r, db') ->
  exists_for_date d db = true -> exists_for_date d db' = true.
Proof.
  intros H Hd. destruct (generate_loop_appends n c k db _ _ H) as (new & E & _).
  rewrite (exists_for_date_app d db db' new E), Hd. reflexivity.
Qed.

(** When the loop returns, every date of the range has an assignment. *)
Lemma generate_loop_covers (n : nat) :
  forall c k db k' db',
    generate_loop pat n c k db = (Ok k', db') ->
    forall d, c <= d < c + Z.of_nat n -> exists_for_date d db' = true.
Proof.
  induction n as [|n IH]; intros c k db k' db' H d Hd; [lia|].
  rewrite generate_loop_S in H.
  destruct (exists_for_date c db) eqn:Hc.
  - destruct (Z.eq_dec d c) as [->|Hne].
    + eapply generate_loop_monotone; eassumption.
    + eapply IH; [exact H|lia].
  - destruct (generate_day pat c db) as [[u|e] db2] eqn:Hday; [|discriminate].
    destruct (Z.eq_dec d c) as [->|Hne]; [|eapply IH; [exact H|lia]].
    eapply generate_loop_monotone; [exact H|].
    destruct (generate_day_outcome pat c db _ _ Hday) as (new1 & E1 & Hd1 & Hl1).
    rewrite (exists_for_date_app c db db2 new1 E1).
    specialize (Hl1 u eq_refl).
    destruct new1 as [|a1 new1]; [discriminate|].
    inversion Hd1 as [|? ? Ha1 _]; subst. cbn. rewrite Z.eqb_refl.
    apply orb_true_r.
Qed.

(** When every date of the range has an assignment, the loop creates
    nothing. *)
Lemma generate_loop_all_skipped (n : nat) :
  forall c k db,
    (forall d, c <= d < c + Z.of_nat n -> exists_for_date d db = true) ->
    generate_loop pat n c k db = (Ok k, db).
Proof.
  induction n as [|n IH]; intros c k db Hall; [reflexivity|].
  rewrite generate_loop_S, (Hall c) by lia.
  apply IH. intros d Hd. apply Hall. lia.
Qed.

End GenerateLoopFacts.

(** C5.  When [generate_schedule] returns over a range, the rows it
    created are appended to the table, their number is the count returned,
    and each is for a date of the range that had no assignment at all
    before; so the rows of a date that already had an assignment of either
    kind are exactly what they were.  Run again over the same range on the
    resulting database, [generate_schedule] returns 0 and leaves the
    database as it is. *)
Theorem C5_generate_schedule_skips_and_is_idempotent
  (start_d end_d now : Z) (g g' : ScheduleGenerator) (db db' : DB) (n : Z) :
  generate_schedule start_d end_d now (g, db) = (Ok n, (g', db')) ->
  (exists new,
      assignments db' = assignments db ++ new
      /\ n = len new
      /\ Forall (fun a => exists_for_date (date a) db = false
                          /\ start_d <= date a <= end_d) new)
  /\ (forall d, exists_for_date d db = true ->
        filter (fun a => date a =? d) (assignments db')
        = filter (fun a => date a =? d) (assignments db))
  /\ (forall now',
        generate_schedule start_d end_d now' (g', db')
        = (Ok 0, (mk_ScheduleGenerator (pattern g) (Some now'), db'))).
Proof.
  unfold generate_schedule, atomic, bind, get_self, on_db, put_self, ret.
  cbn [fst snd].
  destruct (generate_loop (pattern g) (Z.to_nat (end_d - start_d + 1)) start_d 0 db)
    as [[k|e] db1] eqn:Hloop; [|discriminate].
  cbn [fst snd]. intros [= <- <- <-].
  destruct (generate_loop_appends _ _ _ _ _ _ _ Hloop) as (new & E & Hnew & Hk).
  assert (Hnew' : Forall (fun a => exists_for_date (date a) db = false
                                   /\ start_d <= date a <= end_d) new).
  { eapply Forall_impl; [|exact Hnew]. cbn. intros a [? ?]. split; [assumption|lia]. }
  repeat apply conj.
  - exists new. repeat split; [exact E| |exact Hnew'].
    rewrite (Hk k eq_refl). lia.
  - intros d Hd. rewrite E, filter_app.
    replace (filter (fun a => date a =? d) new) with (@nil MonitoringAssignment);
      [apply app_nil_r|].
    symmetry. clear E Hnew Hk. induction new as [|a new IH]; [reflexivity|].
    inversion Hnew' as [|? ? [Ha _] Hrest]; subst. cbn.
    destruct (date a =? d) eqn:Ead; [|now apply IH].
    apply Z.eqb_eq in Ead. congruence.
  - intros now'. cbn [pattern].
    rewrite (generate_loop_all_skipped (pattern g)); [reflexivity|].
    intros d Hd. eapply generate_loop_covers; [exact Hloop|exact Hd].
Qed.

Lemma C5_witness_two_days :
  generate_schedule InitialData.monday InitialData.tuesday 0
    (InitialData.generator, InitialData.empty_db)
  = (Ok 4, InitialData.two_days)
  /\ generate_schedule InitialData.monday InitialData.tuesday 1 InitialData.two_days
     = (Ok 0, (mk_ScheduleGenerator pattern_2024 (Some 1), InitialData.two_days_db)).
Proof.
  assert (H : generate_schedule InitialData.monday InitialData.tuesday 0
                (InitialData.generator, InitialData.empty_db)
              = (Ok 4, (fst InitialData.two_days, InitialData.two_days_db)))
    by (vm_compute; reflexivity).
  split; [vm_compute; reflexivity|].
  destruct (C5_generate_schedule_skips_and_is_idempotent _ _ _ _ _ _ _ _ H)
    as (_ & _ & Hidem).
  exact (Hidem 1).
Defined.

(** ** Approving a pending swap *)

(** C2 (the code departs from the claim).  For a PENDING swap request
    whose original assignment is stored (with its window), [approve_swap]
    does not create the reciprocal assignment: the create carries the date
    and monitoring type of the original row, the unique constraint of the
    table rejects it, and the method raises [IntegrityError] before the
    original assignment or the request is touched. *)
Theorem C2_approve_swap_hits_unique_constraint
  (self : ShiftSwapRequest) (approver : Analyst) (now : Z) (db : DB)
  (original : MonitoringAssignment) :
  swap_status self = "PENDING" ->
  find (has_pk (original_assignment self)) (assignments db) = Some original ->
  window_known original ->
  approve_swap approver now (self, db) = (Raise IntegrityError, (self, db)).
Proof.
  intros Hst Hfind Hw.
  unfold approve_swap, bind, get_self, on_db, objects_get. cbn [fst snd].
  rewrite Hst. change (negb ("PENDING" =? "PENDING")%string) with false.
  cbv beta iota. cbn [fst snd]. rewrite Hfind. cbn [fst snd].
  match goal with
  | |- context [objects_create ?kw db] =>
    destruct (create_duplicate kw original db) as [_ Hdup];
      [exact (proj1 (find_some _ _ Hfind)) | reflexivity |];
      rewrite (Hdup Hw)
  end.
  destruct self; reflexivity.
Qed.

Lemma C2_witness_monday_em :
  approve_swap InitialData.natnael 5
    (mk_ShiftSwapRequest 1 InitialData.natnael "PENDING" "exam" None
       InitialData.nurahmed None None,
     InitialData.two_days_db)
  = (Raise IntegrityError,
     (mk_ShiftSwapRequest 1 InitialData.natnael "PENDING" "exam" None
        InitialData.nurahmed None None,
      InitialData.two_days_db)).
Proof.
  apply (C2_approve_swap_hits_unique_constraint _ _ _ _
           (nth 0 (assignments InitialData.two_days_db) mislabelled_wednesday)).
  - reflexivity.
  - vm_compute. reflexivity.
  - left. vm_compute. split; discriminate.
Defined.

(** ** Approving a leave with coverage *)

Section LeaveFacts.

Lemma meta_insert_In (x a : MonitoringAssignment) l :
  In x (meta_insert a l) <-> x = a \/ In x l.
Proof.
  induction l as [|b l IH]; cbn.
  - split; [intros [H|[]]; auto | intros [H|[]]; auto].
  - destruct (meta_le a b); cbn.
    + split; [intros [H|H]; auto | intros [H|H]; auto].
    + rewrite IH. split.
      * intros [H|[H|H]]; auto.
      * intros [H|[H|H]]; auto.
Qed.

(** Ordering a query result keeps its rows. *)
Lemma order_by_meta_In (x : MonitoringAssignment) l :
  In x (order_by_meta l) <-> In x l.
Proof.
  unfold order_by_meta. induction l as [|a l IH]; cbn; [reflexivity|].
  rewrite meta_insert_In, IH. split; intros [H|H]; auto.
Qed.

Lemma affected_add_keeps (acc : list Z) (a : MonitoringAssignment) (pk : Z) :
  In pk acc -> In pk (affected_add acc a).
Proof.
  intros H. unfold affected_add. destruct (id a) as [i|]; [|exact H].
  destruct (existsb (Z.eqb i) acc); [exact H|].
  apply in_or_app. now left.
Qed.

Lemma affected_add_adds (acc : list Z) (a : MonitoringAssignment) (pk : Z) :
  id a = Some pk -> In pk (affected_add acc a).
Proof.
  intros H. unfold affected_add. rewrite H.
  destruct (existsb (Z.eqb pk) acc) eqn:E.
  - apply existsb_exists in E as (i & Hi & Ei). apply Z.eqb_eq in Ei. now subst i.
  - apply in_or_app. right. now left.
Qed.

(** Every row of the query result ends up linked to the request. *)
Lemma fold_affected_In (l : list MonitoringAssignment) :
  forall acc pk,
    In pk acc \/ (exists a, In a l /\ id a = Some pk) ->
    In pk (fold_left affected_add l acc).
Proof.
  induction l as [|b l IH]; intros acc pk H; cbn.
  - destruct H as [H|(a & [] & _)]. exact H.
  - apply IH. destruct H as [H|(a & [->|Ha] & Hid)].
    + left. now apply affected_add_keeps.
    + left. now apply affected_add_adds.
    + right. now exists a.
Qed.

End LeaveFacts.

(** C4 (the code departs from the claim).  For a PENDING leave request
    with auto-adjust enabled, approved with a coverage analyst, as soon as
    one stored assignment is affected [approve_leave] creates no covering
    assignment and cancels nothing: the first create of
    [_arrange_coverage] carries the date and monitoring type of the
    affected row itself, the unique constraint rejects it, and the method
    raises [IntegrityError] instead of returning the count.  The request
    has already been saved as APPROVED with its coverage analyst; the
    assignment table is as before. *)
Theorem C4_approve_leave_hits_unique_constraint
  (self : LeaveRequest) (approver cov : Analyst) (now : Z) (db : DB)
  (a : MonitoringAssignment) :
  leave_status self = "PENDING" ->
  auto_adjust_pattern self = true ->
  In a (assignments db) ->
  impacted self a = true ->
  Forall (fun r => id r <> None /\ window_known r) (assignments db) ->
  exists self',
    approve_leave approver (Some cov) now (self, db)
    = (Raise IntegrityError, (self', db))
    /\ leave_status self' = "APPROVED"
    /\ covered_by self' = Some cov.
Proof.
  intros Hst Hauto Hin Himp Hstored.
  rewrite Forall_forall in Hstored.
  unfold approve_leave, assess_impact, _arrange_coverage,
    bind, get_self, on_db, get, put_self, ret.
  cbn [fst snd]. rewrite Hst.
  change (negb ("PENDING" =? "PENDING")%string) with false.
  cbv beta iota. cbn [fst snd set_affected_assignments auto_adjust_pattern
                      covered_by affected_assignments leave_analyst].
  rewrite Hauto. cbv beta iota. cbn [fst snd].
  set (pks := fold_left affected_add
                (order_by_meta (filter (impacted self) (assignments db))) []).
  set (self' := mk_LeaveRequest _ _ _ _ _ _ _ _ _ _).
  unfold affected_all. cbn [affected_assignments].
  set (q := filter _ (assignments db)).
  assert (Ha : In a (order_by_meta q)).
  { apply order_by_meta_In. apply filter_In. split; [exact Hin|].
    destruct (Hstored a Hin) as [Hid _].
    destruct (id a) as [pk|] eqn:Eid; [|contradiction].
    apply existsb_exists. exists pk. split; [|now apply has_pk_iff].
    apply fold_affected_In. right. exists a. split; [|exact Eid].
    apply order_by_meta_In. apply filter_In. now split. }
  destruct (order_by_meta q) as [|h t] eqn:Eq; [destruct Ha|].
  assert (Hh : In h (assignments db)).
  { assert (In h (order_by_meta q)) by (rewrite Eq; now left).
    apply (proj1 (order_by_meta_In h q)) in H.
    exact (proj1 (proj1 (filter_In _ _ _) H)). }
  cbn [arrange_loop]. unfold bind.
  match goal with
  | |- context [objects_create ?kw db] =>
    destruct (create_duplicate kw h db Hh eq_refl) as [_ Hdup];
      rewrite (Hdup (proj2 (Hstored h Hh)))
  end.
  exists self'. repeat split.
Qed.

Lemma C4_witness_ebisa_leave :
  exists self',
    approve_leave InitialData.gezagn (Some InitialData.natnael) 7
      (ebisa_leave, InitialData.two_days_db)
    = (Raise IntegrityError, (self', InitialData.two_days_db))
    /\ leave_status self' = "APPROVED"
    /\ covered_by self' = Some InitialData.natnael.
Proof.
  apply (C4_approve_leave_hits_unique_constraint ebisa_leave InitialData.gezagn
           InitialData.natnael 7 InitialData.two_days_db
           (nth 2 (assignments InitialData.two_days_db) mislabelled_wednesday)).
  - reflexivity.
  - reflexivity.
  - vm_compute. right. right. left. reflexivity.
  - vm_compute. reflexivity.
  - vm_compute. repeat constructor; try discriminate; left; split; discriminate.
Defined.

(* ===================================================================== *)
(** * Further properties *)
(* ===================================================================== *)

(** ** The generated tables and the slots read from them *)

Section GeneratedTables.

Variable days : Z.
Variable ref : Z.

(** The pattern whose tables are those of [generate_pattern_sequence]. *)
Let generated : SchedulePattern :=
  mk_SchedulePattern ref (fst (generate_pattern_sequence days))
                         (snd (generate_pattern_sequence days)).

(** What [get_assignments_for_date] reads from generated tables: the day
    difference itself from the reference date on, the table index
    [(- |diff|) mod days] before it, and [|diff|] when the tables are
    empty. *)
Lemma generated_slots (d : Z) :
  let i := if d - ref <? 0
           then (if days <=? 0 then Z.abs (d - ref) else (d - ref) mod days)
           else d - ref in
  get_assignments_for_date generated d = Ok (i mod 4, (i mod 4 + 3) mod 4).
Proof.
  unfold generated. rewrite generate_pattern_sequence_spec. cbn [fst snd].
  unfold get_assignments_for_date. cbn [reference_start_date em_pattern dm_pattern].
  rewrite !truthy_map_seq, len_map_seq.
  destruct (d - ref <? 0) eqn:Hneg.
  - apply Z.ltb_lt in Hneg.
    destruct (days <=? 0) eqn:Hd.
    + apply Z.leb_le in Hd. replace (Z.to_nat days) with 0%nat by lia. reflexivity.
    + apply Z.leb_gt in Hd.
      replace (Nat.eqb (Z.to_nat days) 0) with false
        by (symmetry; apply Nat.eqb_neq; lia).
      cbn [negb]. rewrite Z2Nat.id by lia.
      replace (- Z.abs (d - ref)) with (d - ref) by lia.
      assert (Hr : 0 <= (d - ref) mod days < Z.of_nat (Z.to_nat days))
        by (pose proof (Z.mod_pos_bound (d - ref) days ltac:(lia)); lia).
      rewrite !py_index_map_seq by exact Hr.
      rewrite Z2Nat.id by lia. reflexivity.
  - apply Z.ltb_ge in Hneg.
    destruct (negb (Nat.eqb (Z.to_nat days) 0)
              && (Z.of_nat (Z.to_nat days) >? d - ref))%bool eqn:Hin.
    + apply andb_prop in Hin as [_ Hlt]. apply Z.gtb_lt in Hlt.
      rewrite !py_index_map_seq by lia.
      rewrite Z2Nat.id by lia. reflexivity.
    + reflexivity.
Qed.

End GeneratedTables.

(** X1.  [generate_pattern_sequence] returns two tables of the same
    length, [days] (none for a negative [days]); entry [i] of the EM table
    is [i mod 4], entry [i] of the DM table is [(i + 3) mod 4], and both
    stay within 0..3. *)
Theorem generate_pattern_sequence_tables (days : Z) :
  let em := fst (generate_pattern_sequence days) in
  let dm := snd (generate_pattern_sequence days) in
  len em = Z.max 0 days /\ len dm = Z.max 0 days
  /\ (forall i, 0 <= i < days ->
        py_index em i = Ok (i mod 4) /\ py_index dm i = Ok ((i + 3) mod 4))
  /\ Forall (fun x => 0 <= x < 4) em /\ Forall (fun x => 0 <= x < 4) dm.
Proof.
  cbv zeta. rewrite generate_pattern_sequence_spec. cbn [fst snd].
  rewrite !len_map_seq. repeat apply conj.
  - lia.
  - lia.
  - intros i Hi. rewrite !py_index_map_seq by lia. rewrite Z2Nat.id by lia.
    split; [reflexivity|]. f_equal. rewrite Zplus_mod_idemp_l. reflexivity.
  - apply Forall_forall. intros x Hx. apply in_map_iff in Hx as (k & <- & _).
    apply Z.mod_pos_bound. lia.
  - apply Forall_forall. intros x Hx. apply in_map_iff in Hx as (k & <- & _).
    apply Z.mod_pos_bound. lia.
Qed.

(** X2.  From the reference date on, with generated tables of any length,
    the EM slot is the number of days since the reference date modulo 4
    and the DM slot is three ahead; so the slots repeat every four
    days. *)
Theorem slots_from_reference_date (days ref d : Z) :
  ref <= d ->
  let pat := mk_SchedulePattern ref (fst (generate_pattern_sequence days))
                                    (snd (generate_pattern_sequence days)) in
  get_assignments_for_date pat d
  = Ok ((d - ref) mod 4, ((d - ref) mod 4 + 3) mod 4)
  /\ get_assignments_for_date pat (d + 4) = get_assignments_for_date pat d.
Proof.
  intros Hd pat. unfold pat.
  pose proof (generated_slots days ref d) as H1.
  pose proof (generated_slots days ref (d + 4)) as H2.
  cbv zeta in H1, H2.
  replace (d - ref <? 0) with false in H1 by (symmetry; apply Z.ltb_ge; lia).
  replace (d + 4 - ref <? 0) with false in H2 by (symmetry; apply Z.ltb_ge; lia).
  rewrite H1, H2. split; [reflexivity|].
  replace (d + 4 - ref) with (d - ref + 1 * 4) by lia.
  rewrite Z.mod_add by lia. reflexivity.
Qed.

Lemma slots_from_reference_date_witness :
  get_assignments_for_date pattern_2024 (Calendar.date 2024 1 8) = Ok (3, 2)
  /\ get_assignments_for_date pattern_2024 (Calendar.date 2024 1 12)
     = get_assignments_for_date pattern_2024 (Calendar.date 2024 1 8).
Proof.
  assert (H : Calendar.date 2024 1 1 <= Calendar.date 2024 1 8)
    by (vm_compute; discriminate).
  exact (slots_from_reference_date 365 (Calendar.date 2024 1 1)
           (Calendar.date 2024 1 8) H).
Defined.

(** X3.  With generated tables, for every date, before or after the
    reference date, both slots are within 0..3 and the DM slot differs
    from the EM slot: the pattern never puts one rotation position on both
    duties of a day. *)
Theorem slots_in_range_and_distinct (days ref d : Z) :
  exists em_index dm_index,
    get_assignments_for_date
      (mk_SchedulePattern ref (fst (generate_pattern_sequence days))
                              (snd (generate_pattern_sequence days))) d
    = Ok (em_index, dm_index)
    /\ 0 <= em_index < 4 /\ 0 <= dm_index < 4 /\ em_index <> dm_index.
Proof.
  pose proof (generated_slots days ref d) as H. cbv zeta in H.
  do 2 eexists. split; [exact H|].
  match goal with |- 0 <= ?e < 4 /\ _ => set (x := e) end.
  pose proof (Z.mod_pos_bound
                (if d - ref <? 0
                 then if days <=? 0 then Z.abs (d - ref) else (d - ref) mod days
                 else d - ref) 4 ltac:(lia)) as Hx.
  fold x in Hx.
  pose proof (Z.mod_pos_bound (x + 3) 4 ltac:(lia)) as Hy.
  pose proof (Z.div_mod (x + 3) 4 ltac:(lia)) as Hdm.
  repeat split; lia.
Qed.

(** X4.  When the generated tables have a positive length that is a
    multiple of 4, the backward branch is exact: for every date before the
    reference date the EM slot is the true (never negative) modulo of the
    day difference. *)
Theorem slots_before_reference_date_multiple_of_4 (days ref d : Z) :
  0 < days -> days mod 4 = 0 -> d < ref ->
  get_assignments_for_date
    (mk_SchedulePattern ref (fst (generate_pattern_sequence days))
                            (snd (generate_pattern_sequence days))) d
  = Ok ((d - ref) mod 4, ((d - ref) mod 4 + 3) mod 4).
Proof.
  intros Hpos Hmul Hlt.
  pose proof (generated_slots days ref d) as H. cbv zeta in H.
  replace (d - ref <? 0) with true in H by (symmetry; apply Z.ltb_lt; lia).
  replace (days <=? 0) with false in H by (symmetry; apply Z.leb_gt; lia).
  rewrite H.
  rewrite Z.mod_mod_divide; [reflexivity|].
  apply Z.mod_divide; [lia|exact Hmul].
Qed.

Lemma slots_before_reference_date_multiple_of_4_witness :
  get_assignments_for_date
    (mk_SchedulePattern (Calendar.date 2024 1 1)
       (fst (generate_pattern_sequence 364)) (snd (generate_pattern_sequence 364)))
    (Calendar.date 2023 12 31)
  = Ok (3, 2).
Proof.
  apply (slots_before_reference_date_multiple_of_4 364 (Calendar.date 2024 1 1)
           (Calendar.date 2023 12 31)).
  - reflexivity.
  - reflexivity.
  - reflexivity.
Defined.

(** ** Stored tables of any content *)

Lemma py_index_in_range (l : list Z) (i : Z) :
  0 <= i < len l -> exists x, py_index l i = Ok x.
Proof.
  intros Hi. unfold py_index.
  replace (i <? 0) with false by (symmetry; apply Z.ltb_ge; lia).
  replace ((0 <=? i) && (i <? len l))%bool with true
    by (symmetry; apply andb_true_intro; split; [apply Z.leb_le|apply Z.ltb_lt]; lia).
  eexists; reflexivity.
Qed.

Lemma truthy_len {A} (l : list A) : truthy l = (0 <? len l).
Proof. destruct l; [reflexivity|]. unfold len. cbn [List.length truthy]. symmetry. apply Z.ltb_lt. lia. Qed.

(** X5.  Whatever the stored tables contain, [get_assignments_for_date]
    returns for every date as soon as the two tables have the same
    length. *)
Theorem lookup_total_on_tables_of_equal_length (p : SchedulePattern) (d : Z) :
  len (em_pattern p) = len (dm_pattern p) ->
  exists em_index dm_index, get_assignments_for_date p d = Ok (em_index, dm_index).
Proof.
  intros Hlen. unfold get_assignments_for_date.
  rewrite !truthy_len, <- Hlen.
  destruct (d - reference_start_date p <? 0) eqn:Hneg.
  - destruct (0 <? len (em_pattern p)) eqn:Hpos.
    + apply Z.ltb_lt in Hpos.
      pose proof (Z.mod_pos_bound (- Z.abs (d - reference_start_date p))
                    (len (em_pattern p)) Hpos) as Hr.
      destruct (py_index_in_range (em_pattern p) _ Hr) as (x & ->).
      rewrite Hlen in Hr.
      destruct (py_index_in_range (dm_pattern p) _ Hr) as (y & Hy).
      rewrite <- Hlen in Hy. rewrite Hy. now exists x, y.
    + do 2 eexists; reflexivity.
  - apply Z.ltb_ge in Hneg.
    destruct ((0 <? len (em_pattern p))
              && (len (em_pattern p) >? d - reference_start_date p))%bool eqn:Hin.
    + apply andb_prop in Hin as [_ Hlt]. apply Z.gtb_lt in Hlt.
      destruct (py_index_in_range (em_pattern p) (d - reference_start_date p))
        as (x & ->); [lia|].
      destruct (py_index_in_range (dm_pattern p) (d - reference_start_date p))
        as (y & ->); [lia|].
      now exists x, y.
    + do 2 eexists; reflexivity.
Qed.

Lemma lookup_total_on_tables_of_equal_length_witness :
  exists em_index dm_index,
    get_assignments_for_date (mk_SchedulePattern 10 [2; 0; 1] [1; 3; 0]) 4
    = Ok (em_index, dm_index).
Proof.
  apply (lookup_total_on_tables_of_equal_length
           (mk_SchedulePattern 10 [2; 0; 1] [1; 3; 0]) 4).
  reflexivity.
Defined.

(** X6.  When the DM table is shorter than the EM table, a date on or
    after the reference date that is inside the EM table but beyond the
    DM table makes [get_assignments_for_date] raise [IndexError]. *)
Theorem lookup_raises_beyond_short_dm_table (p : SchedulePattern) (d : Z) :
  len (dm_pattern p) <= d - reference_start_date p < len (em_pattern p) ->
  get_assignments_for_date p d = Raise IndexError.
Proof.
  intros [Hlo Hhi]. unfold get_assignments_for_date.
  assert (H0 : 0 <= d - reference_start_date p) by (unfold len in Hlo; lia).
  replace (d - reference_start_date p <? 0) with false
    by (symmetry; apply Z.ltb_ge; lia).
  rewrite truthy_len.
  replace ((0 <? len (em_pattern p))
           && (len (em_pattern p) >? d - reference_start_date p))%bool with true
    by (symmetry; apply andb_true_intro; split; [apply Z.ltb_lt|apply Z.gtb_lt]; lia).
  destruct (py_index_in_range (em_pattern p) (d - reference_start_date p))
    as (x & ->); [lia|].
  unfold py_index.
  replace (d - reference_start_date p <? 0) with false
    by (symmetry; apply Z.ltb_ge; lia).
  replace (d - reference_start_date p <? len (dm_pattern p)) with false
    by (symmetry; apply Z.ltb_ge; lia).
  rewrite andb_false_r. reflexivity.
Qed.

Lemma lookup_raises_beyond_short_dm_table_witness :
  get_assignments_for_date (mk_SchedulePattern 10 [0; 1; 2; 3] [3; 0]) 12
  = Raise IndexError.
Proof.
  apply (lookup_raises_beyond_short_dm_table
           (mk_SchedulePattern 10 [0; 1; 2; 3] [3; 0]) 12).
  vm_compute. split; [discriminate|reflexivity].
Defined.

(** X7.  [SchedulePattern.save] leaves a pattern with two non-empty
    tables as it is; otherwise it replaces both tables by the generated
    365-entry ones, even when one of them was set.  Either way both tables
    are non-empty afterwards, the reference date is kept, and saving again
    changes nothing. *)
Theorem SchedulePattern_save_fills_tables (p : SchedulePattern) :
  (truthy (em_pattern p) = true -> truthy (dm_pattern p) = true ->
   SchedulePattern_save p = p)
  /\ (truthy (em_pattern p) = false \/ truthy (dm_pattern p) = false ->
      em_pattern (SchedulePattern_save p) = fst (generate_pattern_sequence 365)
      /\ dm_pattern (SchedulePattern_save p) = snd (generate_pattern_sequence 365))
  /\ truthy (em_pattern (SchedulePattern_save p)) = true
  /\ truthy (dm_pattern (SchedulePattern_save p)) = true
  /\ reference_start_date (SchedulePattern_save p) = reference_start_date p
  /\ SchedulePattern_save (SchedulePattern_save p) = SchedulePattern_save p.
Proof.
  unfold SchedulePattern_save.
  destruct (truthy (em_pattern p)) eqn:He; destruct (truthy (dm_pattern p)) eqn:Hd;
    cbn [negb orb].
  - rewrite He, Hd. cbn [negb orb]. repeat apply conj; try reflexivity; try assumption.
    intros [H|H]; discriminate.
  - repeat apply conj; try (vm_compute; reflexivity); try discriminate.
    intros _. split; vm_compute; reflexivity.
  - repeat apply conj; try (vm_compute; reflexivity); try discriminate.
    intros _. split; vm_compute; reflexivity.
  - repeat apply conj; try (vm_compute; reflexivity); try discriminate.
    intros _. split; vm_compute; reflexivity.
Qed.

(** ** Saving a monitoring type *)

(** X8.  The normalisation of [MonitoringType.save] only ever changes the
    end hour: afterwards an EM type does not end at 17 and a DM type does
    not end at 7, every other field is as given, and normalising again
    changes nothing. *)
Theorem MonitoringType_save_fixes_end_hour (t : MonitoringType) :
  let t' := MonitoringType_pre_save t in
  (code t' = "EM" -> default_end_hour t' <> 17)
  /\ (code t' = "DM" -> default_end_hour t' <> 7)
  /\ t' = set_default_end_hour (default_end_hour t') t
  /\ (default_end_hour t' <> default_end_hour t ->
      code t = "EM" /\ default_end_hour t' = 7
      \/ code t = "DM" /\ default_end_hour t' = 17)
  /\ MonitoringType_pre_save t' = t'.
Proof.
  destruct t as [pk c sh sm eh em so eo].
  cbv zeta. unfold MonitoringType_pre_save.
  cbn [code default_end_hour set_default_end_hour mt_pk default_start_hour
       default_start_minute default_end_minute monday_start_offset_hours
       monday_end_offset_hours].
  destruct (String.eqb_spec c "EM") as [->|Hem];
    [|destruct (String.eqb_spec c "DM") as [->|Hdm]];
    cbn [andb];
    [destruct (Z.eqb_spec eh 17) as [->|H17]
    |destruct (Z.eqb_spec eh 7) as [->|H7]
    |];
    cbn [andb code default_end_hour set_default_end_hour];
    try rewrite (proj2 (Z.eqb_neq eh 17) H17);
    try rewrite (proj2 (Z.eqb_neq eh 7) H7);
    try rewrite (proj2 (String.eqb_neq c "EM") Hem);
    try rewrite (proj2 (String.eqb_neq c "DM") Hdm);
    cbn;
    repeat apply conj; intros;
    first [ reflexivity | discriminate | lia | congruence
          | left; split; [reflexivity|lia]
          | right; split; [reflexivity|lia]
          | destruct (Z.eqb_spec eh 17); [lia|reflexivity]
          | destruct (Z.eqb_spec eh 7); [lia|reflexivity] ].
Qed.

(** ** Time windows *)

Section WindowArithmetic.

Variable mt : MonitoringType.
Variable d : Z.
Hypothesis start_valid :
  0 <= default_start_hour mt <= 23 /\ 0 <= default_start_minute mt <= 59.
Hypothesis end_valid :
  0 <= default_end_hour mt <= 23 /\ 0 <= default_end_minute mt <= 59.

(** The start of the window: the offset, in hours, before the start time
    on the date itself. *)
Lemma window_start_outcome :
  let back := if ((weekday d =? 0) && (monday_start_offset_hours mt >? 0))%bool
              then monday_start_offset_hours mt else 24 in
  exists ws,
    (let '(start_date, start_hour) :=
       if ((weekday d =? 0) && (monday_start_offset_hours mt >? 0))%bool then
         if default_start_hour mt - monday_start_offset_hours mt mod 24 <? 0
         then (d - monday_start_offset_hours mt / 24 - 1,
               default_start_hour mt - monday_start_offset_hours mt mod 24 + 24)
         else (d - monday_start_offset_hours mt / 24,
               default_start_hour mt - monday_start_offset_hours mt mod 24)
       else (d - 1, default_start_hour mt) in
     combine start_date start_hour (default_start_minute mt)) = Ok ws
    /\ total_seconds ws (mk_datetime d (default_start_hour mt) (default_start_minute mt))
       = back * 3600.
Proof.
  destruct start_valid as [Hh Hm]. cbv zeta.
  destruct ((weekday d =? 0) && (monday_start_offset_hours mt >? 0))%bool.
  - pose proof (Z.div_mod (monday_start_offset_hours mt) 24 ltac:(lia)) as Hdm.
    pose proof (Z.mod_pos_bound (monday_start_offset_hours mt) 24 ltac:(lia)) as Hb.
    destruct (default_start_hour mt - monday_start_offset_hours mt mod 24 <? 0) eqn:Hneg.
    + apply Z.ltb_lt in Hneg. rewrite combine_ok by lia.
      eexists. split; [reflexivity|].
      unfold total_seconds. cbn [dt_date dt_hour dt_minute]. lia.
    + apply Z.ltb_ge in Hneg. rewrite combine_ok by lia.
      eexists. split; [reflexivity|].
      unfold total_seconds. cbn [dt_date dt_hour dt_minute]. lia.
  - rewrite combine_ok by lia. eexists. split; [reflexivity|].
    unfold total_seconds. cbn [dt_date dt_hour dt_minute]. lia.
Qed.

End WindowArithmetic.

(** X9.  With valid default hours and minutes, and a Monday end extension
    that keeps the end hour below 48, [get_time_window_for_date] returns a
    window for every date.  Its start lies before the start time of the
    date itself by the Monday start offset (on a Monday with a positive
    offset) or by 24 hours (otherwise); its end lies after the end time of
    the date by the Monday end offset (on a Monday with a positive offset)
    or is that end time. *)
Theorem window_offsets_are_exact (mt : MonitoringType) (d : Z) :
  0 <= default_start_hour mt <= 23 /\ 0 <= default_start_minute mt <= 59 ->
  0 <= default_end_hour mt <= 23 /\ 0 <= default_end_minute mt <= 59 ->
  default_end_hour mt + monday_end_offset_hours mt < 48 ->
  let back := if ((weekday d =? 0) && (monday_start_offset_hours mt >? 0))%bool
              then monday_start_offset_hours mt else 24 in
  let ahead := if ((weekday d =? 0) && (monday_end_offset_hours mt >? 0))%bool
               then monday_end_offset_hours mt else 0 in
  exists ws we,
    get_time_window_for_date mt d = Ok (ws, we)
    /\ total_seconds ws (mk_datetime d (default_start_hour mt) (default_start_minute mt))
       = back * 3600
    /\ total_seconds (mk_datetime d (default_end_hour mt) (default_end_minute mt)) we
       = ahead * 3600
    /\ total_seconds ws we
       = (back + ahead + default_end_hour mt - default_start_hour mt) * 3600
         + (default_end_minute mt - default_start_minute mt) * 60.
Proof.
  intros Hs He Hend. cbv zeta.
  destruct (window_start_outcome mt d Hs) as (ws & Hws & Hback). cbv zeta in Hback.
  unfold get_time_window_for_date.
  assert (Hstart :
    (let '(start_date, start_hour) :=
       if ((weekday d =? 0) && (monday_start_offset_hours mt >? 0))%bool then
         let start_date := d - monday_start_offset_hours mt / 24 in
         let start_hour := default_start_hour mt - monday_start_offset_hours mt mod 24 in
         if start_hour <? 0 then (start_date - 1, start_hour + 24)
         else (start_date, start_hour)
       else (d - 1, default_start_hour mt) in
     combine start_date start_hour (default_start_minute mt)) = Ok ws).
  { rewrite <- Hws. cbv zeta.
    destruct ((weekday d =? 0) && (monday_start_offset_hours mt >? 0))%bool;
      [|reflexivity].
    destruct (default_start_hour mt - monday_start_offset_hours mt mod 24 <? 0);
      reflexivity. }
  cbv zeta in Hstart.
  destruct (if ((weekday d =? 0) && (monday_start_offset_hours mt >? 0))%bool
            then _ else _) as [sd sh].
  rewrite Hstart.
  destruct He as [Heh Hem].
  destruct ((weekday d =? 0) && (monday_end_offset_hours mt >? 0))%bool eqn:Hmon.
  - apply andb_prop in Hmon as [_ Hpos]. apply Z.gtb_lt in Hpos.
    destruct (default_end_hour mt + monday_end_offset_hours mt >=? 24) eqn:Hc;
      rewrite Z.geb_leb in Hc;
      [apply Z.leb_le in Hc | apply Z.leb_gt in Hc];
      rewrite combine_ok by lia; do 2 eexists;
      (split; [reflexivity|]); (split; [exact Hback|]);
      unfold total_seconds in *; cbn [dt_date dt_hour dt_minute] in *; lia.
  - rewrite combine_ok by lia. do 2 eexists.
    split; [reflexivity|]. split; [exact Hback|].
    unfold total_seconds in *; cbn [dt_date dt_hour dt_minute] in *. lia.
Qed.

Lemma window_offsets_are_exact_witness :
  exists ws we,
    get_time_window_for_date InitialData.DM InitialData.monday = Ok (ws, we)
    /\ total_seconds ws (mk_datetime InitialData.monday 17 0) = 48 * 3600
    /\ total_seconds (mk_datetime InitialData.monday 17 0) we = 0 * 3600
    /\ total_seconds ws we = (48 + 0 + 17 - 17) * 3600 + (0 - 0) * 60.
Proof.
  apply (window_offsets_are_exact InitialData.DM InitialData.monday).
  - cbn. lia.
  - cbn. lia.
  - reflexivity.
Defined.

(** X10.  The Monday end extension carries one day at most: on a Monday,
    when the default end hour plus the end offset reaches 48,
    [get_time_window_for_date] raises [ValueError] (the hour passed to
    [time] is 24 or more). *)
Theorem window_raises_when_end_hour_reaches_48 (mt : MonitoringType) (d : Z) :
  weekday d = 0 ->
  0 <= default_start_hour mt <= 23 /\ 0 <= default_start_minute mt <= 59 ->
  0 < monday_end_offset_hours mt ->
  48 <= default_end_hour mt + monday_end_offset_hours mt ->
  get_time_window_for_date mt d = Raise (ValueError "hour must be in 0..23").
Proof.
  intros Hmon Hs Hpos Hbig.
  destruct (window_start_outcome mt d Hs) as (ws & Hws & _).
  unfold get_time_window_for_date. rewrite Hmon in *.
  change (0 =? 0) with true in *. cbn [andb] in *. cbv zeta in *.
  destruct (monday_start_offset_hours mt >? 0).
  - destruct (default_start_hour mt - monday_start_offset_hours mt mod 24 <? 0);
      rewrite Hws;
      (replace (monday_end_offset_hours mt >? 0) with true
         by (symmetry; apply Z.gtb_lt; lia));
      (replace (default_end_hour mt + monday_end_offset_hours mt >=? 24) with true
         by (symmetry; rewrite Z.geb_leb; apply Z.leb_le; lia));
      unfold combine;
      (replace (default_end_hour mt + monday_end_offset_hours mt - 24 <=? 23) with false
         by (symmetry; apply Z.leb_gt; lia));
      rewrite andb_false_r; reflexivity.
  - rewrite Hws.
    replace (monday_end_offset_hours mt >? 0) with true
      by (symmetry; apply Z.gtb_lt; lia).
    replace (default_end_hour mt + monday_end_offset_hours mt >=? 24) with true
      by (symmetry; rewrite Z.geb_leb; apply Z.leb_le; lia).
    unfold combine.
    replace (default_end_hour mt + monday_end_offset_hours mt - 24 <=? 23) with false
      by (symmetry; apply Z.leb_gt; lia).
    rewrite andb_false_r. reflexivity.
Qed.

Lemma window_raises_when_end_hour_reaches_48_witness :
  get_time_window_for_date (mk_MonitoringType 1 "EM" 17 0 7 0 58 41) InitialData.monday
  = Raise (ValueError "hour must be in 0..23").
Proof.
  apply (window_raises_when_end_hour_reaches_48
           (mk_MonitoringType 1 "EM" 17 0 7 0 58 41) InitialData.monday).
  - reflexivity.
  - cbn. lia.
  - reflexivity.
  - cbn. lia.
Defined.

(** ** Saving and reading back assignments *)

Lemma pre_save_extended_flag (a a0 : MonitoringAssignment) :
  pre_save a = Ok a0 ->
  (is_extended_window a = true -> is_extended_window a0 = true)
  /\ (weekday (date a) <> 0 -> is_extended_window a0 = is_extended_window a).
Proof.
  unfold pre_save. intros H.
  destruct (window_start a) as [s|]; [destruct (window_end a) as [e|]|].
  2,3: destruct (get_time_window_for_date (monitoring_type a) (date a))
         as [[s' e']|]; [|discriminate].
  all: cbn [set_duration_hours set_window set_is_monday_assignment
            is_monday_assignment date monitoring_type] in H.
  all: destruct (weekday (date a) =? 0) eqn:Hmon.
  all: repeat match type of H with
              | context [if ?c then _ else _] => destruct c
              end.
  all: injection H as <-; cbn.
  all: split; [tauto|].
  all: intros Hne; try reflexivity.
  all: apply Z.eqb_eq in Hmon; contradiction.
Qed.

(** X11.  A save never clears [is_extended_window]: a flag that was true
    stays true, and for a date that is not a Monday the flag is stored
    exactly as the caller supplied it, whatever the duration. *)
Theorem save_never_clears_extended_flag
  (a a' : MonitoringAssignment) (db db' : DB) :
  MonitoringAssignment_save a db = (Ok a', db') ->
  (is_extended_window a = true -> is_extended_window a' = true)
  /\ (weekday (date a) <> 0 -> is_extended_window a' = is_extended_window a).
Proof.
  intros H. apply save_ok in H as (a0 & Hpre & Hsave).
  apply Model_save_ok in Hsave as (-> & _).
  apply pre_save_extended_flag in Hpre. exact Hpre.
Qed.

Lemma save_never_clears_extended_flag_witness :
  let a := set_is_extended_window true mislabelled_wednesday in
  let r := MonitoringAssignment_save a InitialData.empty_db in
  exists a', fst r = Ok a' /\ is_extended_window a' = true.
Proof.
  intros a r.
  exists (match fst r with Ok x => x | Raise _ => a end).
  assert (Hs : r = (Ok (match fst r with Ok x => x | Raise _ => a end), snd r))
    by (vm_compute; reflexivity).
  split; [vm_compute; reflexivity|].
  exact (proj1 (save_never_clears_extended_flag a _ InitialData.empty_db _ Hs)
           eq_refl).
Defined.

Lemma find_app_none {A} (f : A -> bool) (l1 l2 : list A) :
  existsb f l1 = false -> find f (l1 ++ l2) = find f l2.
Proof.
  induction l1 as [|x l1 IH]; cbn; [reflexivity|].
  destruct (f x); cbn; [discriminate|exact IH].
Qed.

Lemma find_app_other {A} (f : A -> bool) (l : list A) (x : A) :
  f x = false -> find f (l ++ [x]) = find f l.
Proof.
  intros Hx. induction l as [|y l IH]; cbn; [now rewrite Hx|].
  destruct (f y); [reflexivity|exact IH].
Qed.

Lemma has_pk_set_id (pk pk' : Z) (a : MonitoringAssignment) :
  has_pk pk' (set_id (Some pk) a) = (pk =? pk').
Proof. reflexivity. Qed.

Lemma find_replace_pk_same (pk : Z) (self : MonitoringAssignment) rows :
  id self = Some pk -> existsb (has_pk pk) rows = true ->
  find (has_pk pk) (replace_pk pk self rows) = Some self.
Proof.
  intros Hid. induction rows as [|r rows IH]; cbn; [discriminate|].
  destruct (has_pk pk r) eqn:Hr; cbn.
  - intros _. now rewrite (has_pk_self pk self Hid).
  - intros H. rewrite Hr. now apply IH.
Qed.

Lemma find_replace_pk_other (pk pk' : Z) (self : MonitoringAssignment) rows :
  id self = Some pk -> pk' <> pk ->
  find (has_pk pk') (replace_pk pk self rows) = find (has_pk pk') rows.
Proof.
  intros Hid Hne. induction rows as [|r rows IH]; cbn; [reflexivity|].
  destruct (has_pk pk r) eqn:Hr.
  - apply has_pk_iff in Hr.
    assert (E1 : has_pk pk' self = false).
    { unfold has_pk. rewrite Hid. apply Z.eqb_neq. congruence. }
    assert (E2 : has_pk pk' r = false).
    { unfold has_pk. rewrite Hr. apply Z.eqb_neq. congruence. }
    now rewrite E1, E2.
  - destruct (has_pk pk' r); [reflexivity|exact IH].
Qed.

(** X12.  In a well-formed table, an assignment that was saved can be read
    back: the saved instance has a primary key, and [objects.get] on that
    key in the resulting database returns exactly the saved instance. *)
Theorem save_then_get (a a' : MonitoringAssignment) (db db' : DB) :
  db_wf db ->
  MonitoringAssignment_save a db = (Ok a', db') ->
  exists pk, id a' = Some pk /\ objects_get pk db' = (Ok a', db').
Proof.
  intros (_ & _ & Hbound) H. apply save_ok in H as (a0 & _ & Hsave).
  pose proof (Model_save_outcome a0 db) as O. rewrite Hsave in O.
  inversion O as [|pk Hk Hpk|pk Hid Hpk Hc]; subst.
  - exists pk. split; [reflexivity|]. unfold objects_get. cbn [assignments set_assignments].
    assert (Hnone : existsb (has_pk pk) (assignments db) = false).
    { destruct Hpk as [[_ ->]|[_ Hpk]]; [|exact Hpk].
      destruct (existsb (has_pk (next_id db)) (assignments db)) eqn:E; [|reflexivity].
      apply existsb_exists in E as (r & Hr & Hp). apply has_pk_iff in Hp.
      rewrite Forall_forall in Hbound.
      destruct (Hbound r Hr) as (pk' & E' & Hlt). rewrite Hp in E'.
      injection E' as <-. lia. }
    rewrite find_app_none by exact Hnone. cbn. rewrite Z.eqb_refl. reflexivity.
  - exists pk. split; [exact Hid|]. unfold objects_get. cbn [assignments set_assignments].
    now rewrite find_replace_pk_same.
Qed.

Lemma save_then_get_witness :
  exists pk,
    id (nth 4 (assignments
                 (snd (MonitoringAssignment_save mislabelled_wednesday
                         InitialData.two_days_db))) mislabelled_wednesday)
    = Some pk
    /\ objects_get pk
         (snd (MonitoringAssignment_save mislabelled_wednesday InitialData.two_days_db))
       = (Ok (nth 4 (assignments
                       (snd (MonitoringAssignment_save mislabelled_wednesday
                               InitialData.two_days_db))) mislabelled_wednesday),
          snd (MonitoringAssignment_save mislabelled_wednesday InitialData.two_days_db)).
Proof.
  apply (save_then_get mislabelled_wednesday _ InitialData.two_days_db).
  - concrete_wf.
  - vm_compute. reflexivity.
Defined.

(** X13.  A successful save writes one row only: looking up any other
    primary key gives the same row (or the same absence) after the save
    as before. *)
Theorem save_leaves_other_rows (a a' : MonitoringAssignment) (db db' : DB) (pk' : Z) :
  MonitoringAssignment_save a db = (Ok a', db') ->
  id a' <> Some pk' ->
  find (has_pk pk') (assignments db') = find (has_pk pk') (assignments db).
Proof.
  intros H Hne. apply save_ok in H as (a0 & _ & Hsave).
  pose proof (Model_save_outcome a0 db) as O. rewrite Hsave in O.
  inversion O as [|pk Hk Hpk|pk Hid Hpk Hc]; subst; cbn [assignments set_assignments].
  - apply find_app_other. rewrite has_pk_set_id. apply Z.eqb_neq.
    cbn in Hne. congruence.
  - apply find_replace_pk_other; [exact Hid|]. congruence.
Qed.

Lemma save_leaves_other_rows_witness :
  find (has_pk 2)
    (assignments
       (snd (MonitoringAssignment_save mislabelled_wednesday InitialData.two_days_db)))
  = find (has_pk 2) (assignments InitialData.two_days_db).
Proof.
  set (r := MonitoringAssignment_save mislabelled_wednesday InitialData.two_days_db).
  assert (Hs : r = (Ok (match fst r with Ok x => x | Raise _ => mislabelled_wednesday end),
                    snd r)) by (vm_compute; reflexivity).
  apply (save_leaves_other_rows mislabelled_wednesday _ InitialData.two_days_db _ 2 Hs).
  vm_compute. discriminate.
Defined.

(** X14.  [is_current], [is_future] and [is_past_due] exclude one another;
    an assignment that is neither COMPLETED nor CANCELLED satisfies
    exactly one of them, and a COMPLETED or CANCELLED one is never past
    due. *)
Theorem due_properties_are_exclusive (today : Z) (a : MonitoringAssignment) :
  (is_current today a = true -> is_future today a = false /\ is_past_due today a = false)
  /\ (is_future today a = true -> is_past_due today a = false)
  /\ (status a <> "COMPLETED" -> status a <> "CANCELLED" ->
      (is_past_due today a || is_current today a || is_future today a)%bool = true)
  /\ (status a = "COMPLETED" \/ status a = "CANCELLED" -> is_past_due today a = false).
Proof.
  unfold is_current, is_future, is_past_due. cbn [existsb].
  destruct (Z.ltb_spec (date a) today), (Z.eqb_spec (date a) today);
    destruct (Z.gtb_spec (date a) today); try lia; cbn [andb orb negb].
  all: repeat apply conj; intros; try discriminate; try reflexivity; try tauto.
  all: try (rewrite orb_false_r;
            match goal with
            | H1 : status _ <> "COMPLETED", H2 : status _ <> "CANCELLED" |- _ =>
              rewrite (proj2 (String.eqb_neq _ _) H1), (proj2 (String.eqb_neq _ _) H2);
              reflexivity
            end).
  all: match goal with
       | H : _ \/ _ |- _ => destruct H as [-> | ->]; reflexivity
       end.
Qed.

(** ** Validating a swap request *)

Lemma meta_insert_length (a : MonitoringAssignment) l :
  List.length (meta_insert a l) = S (List.length l).
Proof.
  induction l as [|b l IH]; cbn; [reflexivity|].
  destruct (meta_le a b); cbn; [reflexivity|now rewrite IH].
Qed.

Lemma order_by_meta_length l : List.length (order_by_meta l) = List.length l.
Proof.
  unfold order_by_meta. induction l as [|a l IH]; cbn; [reflexivity|].
  now rewrite meta_insert_length, IH.
Qed.

Lemma first_assignment_none l : first_assignment l = None <-> l = [].
Proof.
  unfold first_assignment. pose proof (order_by_meta_length l) as Hl.
  destruct (order_by_meta l) as [|x t]; cbn in *.
  - split; [intros _|reflexivity]. now destruct l.
  - split; [discriminate|]. intros ->. discriminate.
Qed.

Lemma first_assignment_some l x : first_assignment l = Some x -> In x l.
Proof.
  unfold first_assignment. intros H. apply order_by_meta_In.
  destruct (order_by_meta l) as [|y t]; [discriminate|].
  injection H as ->. now left.
Qed.

Lemma filter_nil_forall {A} (f : A -> bool) (l : list A) :
  filter f l = [] -> forall x, In x l -> f x = false.
Proof.
  intros H x Hx. destruct (f x) eqn:E; [|reflexivity].
  assert (In x (filter f l)) by (apply filter_In; now split).
  rewrite H in *. contradiction.
Qed.

(** X15.  [ShiftSwapRequest.clean] only reads the database, and it never
    raises "EM and DM cannot be assigned to the same analyst on the same
    day": when the DM assignment of the day belongs to the requested
    analyst, the earlier check has already raised "already has".  For a
    request whose original assignment is stored, [clean] accepts exactly
    when the date is not in the past and the requested analyst holds no
    assignment on that date. *)
Theorem swap_clean_outcomes (today : Z) (self : ShiftSwapRequest) (db : DB) :
  snd (ShiftSwapRequest_clean today self db) = db
  /\ fst (ShiftSwapRequest_clean today self db) <> Ok (Invalid SameAnalystSameDay)
  /\ (forall original,
        find (has_pk (original_assignment self)) (assignments db) = Some original ->
        (fst (ShiftSwapRequest_clean today self db) = Ok Valid
         <-> today <= date original
             /\ forall a, In a (assignments db) -> date a = date original ->
                          analyst_pk (analyst a) <> analyst_pk (requested_analyst self))).
Proof.
  unfold ShiftSwapRequest_clean, bind, objects_get, get, ret.
  destruct (find (has_pk (original_assignment self)) (assignments db))
    as [original|] eqn:Hfind; cbn [fst snd];
    [|repeat apply conj; [reflexivity|discriminate|discriminate]].
  set (same_day := filter _ (assignments db)).
  assert (Hsame : same_day = [] <->
            forall a, In a (assignments db) -> date a = date original ->
                      analyst_pk (analyst a) <> analyst_pk (requested_analyst self)).
  { split.
    - intros E a Ha Hd Hp.
      pose proof (filter_nil_forall _ _ E a Ha) as F. cbn in F.
      unfold analyst_eq in F. rewrite Hd, Hp, !Z.eqb_refl in F. discriminate.
    - intros H. destruct same_day as [|x t] eqn:E; [reflexivity|].
      assert (Hx : In x same_day) by (rewrite E; now left).
      apply filter_In in Hx as [Hx Hf]. apply andb_prop in Hf as [Hd Hp].
      apply Z.eqb_eq in Hd. apply Z.eqb_eq in Hp. now destruct (H x Hx Hd Hp). }
  destruct (Z.ltb_spec (date original) today) as [Hpast|Hnow]; cbn [fst snd].
  { repeat apply conj; [reflexivity|discriminate|].
    intros o [= <-]. split; [discriminate|]. intros [? _]. lia. }
  destruct (first_assignment same_day) as [existing|] eqn:Hfirst; cbn [fst snd].
  { repeat apply conj; [reflexivity|discriminate|].
    intros o [= <-]. split; [discriminate|]. intros [_ H].
    apply Hsame in H. apply first_assignment_some in Hfirst.
    rewrite H in Hfirst. destruct Hfirst. }
  apply first_assignment_none in Hfirst.
  assert (Hvalid : forall o, Some original = Some o ->
            (@Ok validation Valid = Ok Valid <->
             today <= date o /\
             (forall a, In a (assignments db) -> date a = date o ->
                        analyst_pk (analyst a) <> analyst_pk (requested_analyst self)))).
  { intros o [= <-]. split; [intros _|reflexivity].
    split; [lia|]. now apply Hsame. }
  destruct (code (monitoring_type original) =? "EM")%string; cbn [fst snd];
    [|repeat apply conj; [reflexivity|discriminate|exact Hvalid]].
  destruct (first_assignment _) as [dm_assignment|] eqn:Hdm; cbn [fst snd];
    [|repeat apply conj; [reflexivity|discriminate|exact Hvalid]].
  destruct (analyst_eq (analyst dm_assignment) (requested_analyst self)) eqn:Heq;
    cbn [fst snd];
    [|repeat apply conj; [reflexivity|discriminate|exact Hvalid]].
  exfalso. apply first_assignment_some in Hdm.
  apply filter_In in Hdm as [Hin Hf]. apply andb_prop in Hf as [Hd _].
  pose proof (filter_nil_forall _ _ Hfirst dm_assignment Hin) as F. cbn in F.
  rewrite Hd, Heq in F. discriminate.
Qed.

(** ** Assessing and approving a leave *)

Lemma fold_affected_spec (l : list MonitoringAssignment) :
  forall acc,
    NoDup acc ->
    NoDup (fold_left affected_add l acc)
    /\ forall pk, In pk (fold_left affected_add l acc)
                  <-> In pk acc \/ exists a, In a l /\ id a = Some pk.
Proof.
  induction l as [|b l IH]; intros acc Hnd; cbn.
  - split; [exact Hnd|]. intros pk. split; [auto|].
    intros [H|(a & [] & _)]. exact H.
  - assert (Hnd' : NoDup (affected_add acc b)).
    { unfold affected_add. destruct (id b) as [i|]; [|exact Hnd].
      destruct (existsb (Z.eqb i) acc) eqn:E; [exact Hnd|].
      apply NoDup_snoc; [exact Hnd|]. intros Hin.
      assert (existsb (Z.eqb i) acc = true); [|congruence].
      apply existsb_exists. exists i. split; [exact Hin|apply Z.eqb_refl]. }
    destruct (IH _ Hnd') as [H1 H2]. split; [exact H1|].
    intros pk. rewrite H2. split.
    + intros [H|(a & Ha & Hid)].
      * unfold affected_add in H. destruct (id b) as [i|] eqn:Eb; [|now left].
        destruct (existsb (Z.eqb i) acc); [now left|].
        apply in_app_or in H as [H|[<-|[]]]; [now left|].
        right. exists b. split; [now left|exact Eb].
      * right. exists a. split; [now right|exact Hid].
    + intros [H|(a & [->|Ha] & Hid)].
      * left. now apply affected_add_keeps.
      * left. now apply affected_add_adds.
      * right. now exists a.
Qed.

(** X16.  [assess_impact] only reads the assignment table.  It returns
    the number of assignments of the analyst within the leave dates whose
    status is SCHEDULED or CONFIRMED, and it replaces the affected set of
    the request, whatever it held, by the primary keys of exactly those
    assignments, each once. *)
Theorem assess_impact_outcome (self : LeaveRequest) (db : DB) :
  exists pks,
    assess_impact (self, db)
    = (Ok (len (filter (impacted self) (assignments db))),
       (set_affected_assignments pks self, db))
    /\ NoDup pks
    /\ (forall pk, In pk pks
                   <-> exists a, In a (assignments db) /\ impacted self a = true
                                 /\ id a = Some pk)
    /\ (forall prior,
          assess_impact (set_affected_assignments prior self, db)
          = (Ok (len (filter (impacted self) (assignments db))),
             (set_affected_assignments pks self, db))).
Proof.
  exists (fold_left affected_add
            (order_by_meta (filter (impacted self) (assignments db))) []).
  destruct (fold_affected_spec
              (order_by_meta (filter (impacted self) (assignments db))) []
              (NoDup_nil Z)) as [Hnd Hin].
  repeat apply conj.
  - unfold assess_impact, bind, get_self, on_db, get, put_self, ret, len.
    cbn [fst snd]. now rewrite order_by_meta_length.
  - exact Hnd.
  - intros pk. rewrite Hin. split.
    + intros [[]|(a & Ha & Hid)].
      apply (proj1 (order_by_meta_In _ _)) in Ha.
      apply filter_In in Ha as [Ha Hi]. now exists a.
    + intros (a & Ha & Hi & Hid). right. exists a. split; [|exact Hid].
      apply order_by_meta_In. apply filter_In. now split.
  - intros prior.
    unfold assess_impact, bind, get_self, on_db, get, put_self, ret, len.
    cbn [fst snd]. now rewrite order_by_meta_length.
Qed.

(** X17.  [approve_leave] on a request that is not PENDING raises
    [ValueError] and changes neither the request nor the database. *)
Theorem approve_leave_requires_pending
  (self : LeaveRequest) (approver : Analyst) (cov : option Analyst) (now : Z) (db : DB) :
  leave_status self <> "PENDING" ->
  approve_leave approver cov now (self, db)
  = (Raise (ValueError "Leave request is not pending"), (self, db)).
Proof.
  intros Hst. unfold approve_leave, bind, get_self. cbn [fst snd].
  destruct (String.eqb_spec (leave_status self) "PENDING") as [E|_];
    [contradiction|reflexivity].
Qed.

Lemma approve_leave_requires_pending_witness :
  approve_leave InitialData.gezagn None 7
    (mk_LeaveRequest InitialData.ebisa InitialData.monday InitialData.tuesday
       "REJECTED" None "" true [] None 0, InitialData.two_days_db)
  = (Raise (ValueError "Leave request is not pending"),
     (mk_LeaveRequest InitialData.ebisa InitialData.monday InitialData.tuesday
        "REJECTED" None "" true [] None 0, InitialData.two_days_db)).
Proof.
  apply approve_leave_requires_pending. cbn. discriminate.
Defined.

(** X18.  A PENDING leave approved without a coverage analyst (none given
    and none stored on the request), or with auto-adjust switched off, or
    with no assignment affected, is approved as follows: the call returns
    the number of affected assignments, the request becomes APPROVED with
    its approver, and the assignment table is exactly as before: nothing
    is cancelled and nothing is created. *)
Theorem approve_leave_without_coverage_work
  (self : LeaveRequest) (approver : Analyst) (cov : option Analyst) (now : Z) (db : DB) :
  leave_status self = "PENDING" ->
  auto_adjust_pattern self = false
  \/ (cov = None /\ covered_by self = None)
  \/ filter (impacted self) (assignments db) = [] ->
  exists self',
    approve_leave approver cov now (self, db)
    = (Ok (len (filter (impacted self) (assignments db))), (self', db))
    /\ leave_status self' = "APPROVED"
    /\ leave_approved_by self' = Some approver
    /\ updated_at self' = now
    /\ (forall c, cov = Some c -> covered_by self' = Some c).
Proof.
  intros Hst Hcase.
  assert (Hnil : forall l : list MonitoringAssignment,
             filter (fun a => existsb (fun pk => has_pk pk a) []) l = [])
    by (induction l; auto).
  unfold approve_leave, assess_impact, _arrange_coverage,
    bind, get_self, on_db, get, put_self, ret.
  cbn [fst snd]. rewrite Hst.
  change (negb ("PENDING" =? "PENDING")%string) with false.
  cbv beta iota. cbn [fst snd set_affected_assignments auto_adjust_pattern
                      covered_by affected_assignments leave_analyst
                      coverage_notes start_date end_date].
  unfold len. rewrite order_by_meta_length.
  destruct cov as [c|]; cbv beta iota zeta;
    cbn [fst snd covered_by auto_adjust_pattern affected_assignments coverage_notes];
    destruct (auto_adjust_pattern self) eqn:Hauto;
    try destruct (covered_by self) as [c0|] eqn:Hc0;
    cbv beta iota zeta; cbn [fst snd].
  all: try (eexists; split; [reflexivity|];
            repeat apply conj; try reflexivity; try discriminate;
            intros ? [= ->]; reflexivity).
  all: destruct Hcase as [H|[[H1 H2]|Hnone]]; try discriminate.
  all: unfold affected_all; cbn [affected_assignments];
       rewrite Hnone; cbn [order_by_meta fold_right fold_left];
       rewrite Hnil; cbn [arrange_loop ret fst snd].
  all: unfold ret; eexists; split; [reflexivity|];
       repeat apply conj; try reflexivity; try discriminate;
       intros ? [= ->]; reflexivity.
Qed.

Lemma approve_leave_without_coverage_work_witness :
  exists self',
    approve_leave InitialData.gezagn None 7 (ebisa_leave, InitialData.two_days_db)
    = (Ok 1, (self', InitialData.two_days_db))
    /\ leave_status self' = "APPROVED"
    /\ leave_approved_by self' = Some InitialData.gezagn
    /\ updated_at self' = 7
    /\ (forall c, @None Analyst = Some c -> covered_by self' = Some c).
Proof.
  apply (approve_leave_without_coverage_work ebisa_leave InitialData.gezagn None 7
           InitialData.two_days_db).
  - reflexivity.
  - right. left. split; reflexivity.
Defined.

(** ** What a generation run writes *)

Lemma pre_save_keeps_window (a a0 : MonitoringAssignment) (s e : datetime) :
  window_start a = Some s -> window_end a = Some e ->
  pre_save a = Ok a0 ->
  window_start a0 = Some s /\ window_end a0 = Some e.
Proof.
  unfold pre_save. intros Hs He. rewrite Hs, He.
  cbn [set_duration_hours set_is_monday_assignment is_monday_assignment
       date monitoring_type].
  intros H.
  repeat match type of H with
         | context [if ?c then _ else _] => destruct c
         end; injection H as <-; cbn; now split.
Qed.

(** A successful create appends the row with the fields it was given. *)
Lemma create_row_fields (kw row : MonitoringAssignment) (db db' : DB)
  (s e : datetime) :
  window_start kw = Some s -> window_end kw = Some e ->
  objects_create kw db = (Ok row, db') ->
  date row = date kw /\ monitoring_type row = monitoring_type kw
  /\ analyst row = analyst kw /\ status row = status kw
  /\ window_start row = Some s /\ window_end row = Some e
  /\ assignments db' = assignments db ++ [row]
  /\ analysts db' = analysts db /\ monitoring_types db' = monitoring_types db.
Proof.
  intros Hs He H. unfold objects_create in H.
  apply save_ok in H as (a0 & Hpre & Hsave).
  pose proof (pre_save_keeps_window (set_id None kw) a0 s e Hs He Hpre) as [Hws Hwe].
  apply pre_save_spec in Hpre as (Hid & Hd & Hmt & Han & Hst & _).
  cbn in Hid, Hd, Hmt, Han, Hst.
  pose proof (Model_save_outcome a0 db) as O. rewrite Hsave in O.
  inversion O as [|pk Hk Hpk|pk Hid' Hpk Hc]; subst; [|congruence].
  cbn. repeat apply conj; try assumption; reflexivity.
Qed.

Section GeneratedRows.

Variable pat : SchedulePattern.

Lemma generated_row_same_tables (db1 db2 : DB) (a : MonitoringAssignment) :
  analysts db1 = analysts db2 -> monitoring_types db1 = monitoring_types db2 ->
  generated_row pat db1 a -> generated_row pat db2 a.
Proof.
  unfold generated_row, analyst_at, type_with_code. intros -> ->. exact (fun H => H).
Qed.

(** The rows of one generated date: none, the EM row, or the EM row and
    the DM row, for the analysts found at the two slots. *)
Lemma generate_day_rows (c : Z) (db db' : DB) (r : result unit) :
  generate_day pat c db = (r, db') ->
  analysts db' = analysts db /\ monitoring_types db' = monitoring_types db
  /\ exists new,
      assignments db' = assignments db ++ new
      /\ Forall (fun a => date a = c /\ generated_row pat db a) new
      /\ (new = []
          \/ exists em_index dm_index ea da,
               get_assignments_for_date pat c = Ok (em_index, dm_index)
               /\ analyst_at em_index db = Some ea
               /\ analyst_at dm_index db = Some da
               /\ (map analyst new = [ea] \/ map analyst new = [ea; da])).
Proof.
  unfold generate_day, bind, get, lift, raise, ret.
  assert (Hnil : forall (r0 : result unit),
             (r0, db) = (r, db') ->
             analysts db' = analysts db /\ monitoring_types db' = monitoring_types db
             /\ exists new,
                 assignments db' = assignments db ++ new
                 /\ Forall (fun a => date a = c /\ generated_row pat db a) new
                 /\ (new = []
                     \/ exists em_index dm_index ea da,
                          get_assignments_for_date pat c = Ok (em_index, dm_index)
                          /\ analyst_at em_index db = Some ea
                          /\ analyst_at dm_index db = Some da
                          /\ (map analyst new = [ea] \/ map analyst new = [ea; da]))).
  { intros r0 [= <- <-]. repeat split. exists []. rewrite app_nil_r.
    repeat split; [constructor|now left]. }
  destruct (get_assignments_for_date pat c) as [[em dm]|] eqn:Hslots;
    [|now apply Hnil].
  destruct (analyst_at em db) as [ea|] eqn:Hea; [|now apply Hnil].
  destruct (analyst_at dm db) as [da|] eqn:Hda; [|now apply Hnil].
  destruct (type_with_code "EM" db) as [et|] eqn:Het; [|now apply Hnil].
  destruct (type_with_code "DM" db) as [dt|] eqn:Hdt; [|now apply Hnil].
  destruct (get_time_window_for_date et c) as [[es ee]|] eqn:Hew; [|now apply Hnil].
  destruct (get_time_window_for_date dt c) as [[ds de]|] eqn:Hdw; [|now apply Hnil].
  destruct (objects_create (new_assignment c et ea (Some es) (Some ee) "CONFIRMED" "") db)
    as [[row1|e1] db1] eqn:Hc1.
  2:{ destruct (create_outcome (new_assignment c et ea (Some es) (Some ee) "CONFIRMED" "") db)
        as [[e Hr]|(row & n & Hr & _)]; rewrite Hr in Hc1; [|discriminate].
      injection Hc1 as <- <-. now apply Hnil. }
  pose proof (create_row_fields
                (new_assignment c et ea (Some es) (Some ee) "CONFIRMED" "")
                row1 db db1 es ee eq_refl eq_refl Hc1)
    as (Hd1 & Hm1 & Ha1 & Hs1 & Hws1 & Hwe1 & Hrows1 & Han1 & Hty1).
  cbn in Hd1, Hm1, Ha1, Hs1.
  assert (G1 : date row1 = c /\ generated_row pat db row1).
  { split; [exact Hd1|]. exists em, dm. rewrite Hd1, Hm1, Ha1.
    repeat split; [exact Hslots|exact Hs1|left; now split|].
    exists es, ee. now repeat split. }
  destruct (objects_create (new_assignment c dt da (Some ds) (Some de) "CONFIRMED" "") db1)
    as [[row2|e2] db2] eqn:Hc2.
  - pose proof (create_row_fields
                  (new_assignment c dt da (Some ds) (Some de) "CONFIRMED" "")
                  row2 db1 db2 ds de eq_refl eq_refl Hc2)
      as (Hd2 & Hm2 & Ha2 & Hs2 & Hws2 & Hwe2 & Hrows2 & Han2 & Hty2).
    cbn in Hd2, Hm2, Ha2, Hs2.
    intros [= <- <-]. repeat split; [congruence|congruence|].
    exists [row1; row2]. rewrite Hrows2, Hrows1, <- app_assoc.
    repeat split.
    + constructor; [exact G1|]. constructor; [|constructor].
      split; [exact Hd2|]. exists em, dm. rewrite Hd2, Hm2, Ha2.
      repeat split; [exact Hslots|exact Hs2|right; now split|].
      exists ds, de. now repeat split.
    + right. exists em, dm, ea, da. repeat split; try assumption.
      right. cbn. now rewrite Ha1, Ha2.
  - destruct (create_outcome (new_assignment c dt da (Some ds) (Some de) "CONFIRMED" "") db1)
      as [[e Hr]|(row & n & Hr & _)]; rewrite Hr in Hc2; [|discriminate].
    injection Hc2 as <- <-.
    intros [= <- <-]. repeat split; [congruence|congruence|].
    exists [row1]. rewrite Hrows1. repeat split.
    + constructor; [exact G1|constructor].
    + right. exists em, dm, ea, da. repeat split; try assumption.
      left. cbn. now rewrite Ha1.
Qed.

(** Every row a run appends is a generated row. *)
Lemma generate_loop_rows (n : nat) :
  forall c k db r db',
    generate_loop pat n c k db = (r, db') ->
    analysts db' = analysts db /\ monitoring_types db' = monitoring_types db
    /\ exists new,
        assignments db' = assignments db ++ new
        /\ Forall (generated_row pat db) new.
Proof.
  induction n as [|n IH]; intros c k db r db' H.
  - cbn in H. injection H as <- <-. repeat split. exists [].
    rewrite app_nil_r. split; [reflexivity|constructor].
  - rewrite generate_loop_S in H.
    destruct (exists_for_date c db); [now apply IH in H|].
    destruct (generate_day pat c db) as [[u|e] db2] eqn:Hday;
      destruct (generate_day_rows c db _ _ Hday) as (Ha & Ht & new1 & E1 & G1 & _).
    + destruct (IH _ _ _ _ _ H) as (Ha2 & Ht2 & new2 & E2 & G2).
      repeat split; [congruence|congruence|].
      exists (new1 ++ new2). rewrite E2, E1, app_assoc. split; [reflexivity|].
      apply Forall_app. split.
      * eapply Forall_impl; [|exact G1]. cbn. now intros a [_ G].
      * eapply Forall_impl; [|exact G2]. intros a.
        now apply generated_row_same_tables.
    + injection H as <- <-. repeat split; [exact Ha|exact Ht|].
      exists new1. split; [exact E1|].
      eapply Forall_impl; [|exact G1]. cbn. now intros a [_ G].
Qed.

End GeneratedRows.

(** X19.  Every assignment that [generate_schedule] creates is CONFIRMED,
    belongs to the first active analyst at the EM slot of its date (with
    the EM type) or at the DM slot (with the DM type), and carries the
    window that its monitoring type gives for its date; the analyst and
    monitoring-type tables are not touched. *)
Theorem generate_schedule_writes_pattern_rows
  (start_d end_d now : Z) (g g' : ScheduleGenerator) (db db' : DB) (n : Z) :
  generate_schedule start_d end_d now (g, db) = (Ok n, (g', db')) ->
  analysts db' = analysts db /\ monitoring_types db' = monitoring_types db
  /\ exists new,
      assignments db' = assignments db ++ new
      /\ Forall (generated_row (pattern g) db) new.
Proof.
  unfold generate_schedule, atomic, bind, get_self, on_db, put_self, ret.
  cbn [fst snd].
  destruct (generate_loop (pattern g) (Z.to_nat (end_d - start_d + 1)) start_d 0 db)
    as [[k|e] db1] eqn:Hloop; [|discriminate].
  cbn [fst snd]. intros [= <- <- <-].
  exact (generate_loop_rows (pattern g) _ _ _ _ _ _ Hloop).
Qed.

Lemma generate_schedule_writes_pattern_rows_witness :
  exists new,
    assignments InitialData.two_days_db = assignments InitialData.empty_db ++ new
    /\ Forall (generated_row pattern_2024 InitialData.empty_db) new.
Proof.
  assert (H : generate_schedule InitialData.monday InitialData.tuesday 0
                (InitialData.generator, InitialData.empty_db)
              = (Ok 4, (fst InitialData.two_days, InitialData.two_days_db)))
    by (vm_compute; reflexivity).
  exact (proj2 (proj2 (generate_schedule_writes_pattern_rows _ _ _ _ _ _ _ _ H))).
Defined.

(** X20.  [generate_schedule] fails atomically: when it raises, the
    database is the one it started from, with no row of the dates that
    were generated before the failure, and [last_generated] is not
    set. *)
Theorem generate_schedule_rolls_back
  (start_d end_d now : Z) (g : ScheduleGenerator) (db : DB) (e : Exn)
  (st : ScheduleGenerator * DB) :
  generate_schedule start_d end_d now (g, db) = (Raise e, st) ->
  st = (g, db).
Proof.
  unfold generate_schedule, atomic, bind, get_self, on_db, put_self, ret.
  cbn [fst snd].
  destruct (generate_loop (pattern g) (Z.to_nat (end_d - start_d + 1)) start_d 0 db)
    as [[k|e0] db1]; cbn [fst snd]; [discriminate|].
  now intros [= _ <-].
Qed.

(** The deployment with Natnael deactivated: the slot of Tuesday's EM duty
    (slot 0 is Ebisa's, slot 1 Gezagn's) is still filled, Wednesday's DM
    slot too, but Thursday 2024-01-11 needs slot 2. *)
Lemma generate_schedule_rolls_back_witness :
  let db := mk_DB [InitialData.ebisa; InitialData.gezagn; InitialData.nurahmed]
                  [InitialData.EM; InitialData.DM] [] 1 in
  exists e,
    generate_schedule InitialData.tuesday (Calendar.date 2024 1 12) 0
      (InitialData.generator, db)
    = (Raise e, (InitialData.generator, db)).
Proof.
  intros db.
  set (r := generate_schedule InitialData.tuesday (Calendar.date 2024 1 12) 0
              (InitialData.generator, db)).
  exists (match fst r with Raise e => e | Ok _ => IndexError end).
  assert (H : r = (Raise (match fst r with Raise e => e | Ok _ => IndexError end), snd r))
    by (vm_compute; reflexivity).
  pose proof (generate_schedule_rolls_back _ _ _ _ _ _ _ H) as E.
  rewrite E in H. exact H.
Defined.

Section GenerateCount.

Variable pat : SchedulePattern.

Lemma free_dates_S (c : Z) (n : nat) (db : DB) :
  free_dates c (S n) db =
  (if exists_for_date c db then [] else [c]) ++ free_dates (c + 1) n db.
Proof.
  unfold free_dates. cbn [seq map filter]. rewrite Z.add_0_r.
  rewrite <- seq_shift, map_map.
  replace (map (fun x => c + Z.of_nat (S x)) (seq 0 n))
    with (map (fun i => c + 1 + Z.of_nat i) (seq 0 n))
    by (apply map_ext; intros i; lia).
  destruct (exists_for_date c db); reflexivity.
Qed.

Lemma free_dates_later (c c0 : Z) (n : nat) (db db2 : DB) new :
  assignments db2 = assignments db ++ new ->
  Forall (fun a => date a = c0) new -> c0 < c ->
  free_dates c n db2 = free_dates c n db.
Proof.
  intros E Hnew Hlt. unfold free_dates. apply filter_ext_in.
  intros d Hd. apply in_map_iff in Hd as (i & <- & _).
  rewrite (exists_for_date_app (c + Z.of_nat i) db db2 new E).
  replace (existsb (fun a => date a =? c + Z.of_nat i) new) with false;
    [now rewrite orb_false_r|].
  symmetry. clear E. induction new as [|a new IH]; [reflexivity|].
  inversion Hnew as [|? ? Ha Hrest]; subst. cbn.
  rewrite (IH Hrest), orb_false_r. apply Z.eqb_neq. lia.
Qed.

(** A run that returns has created two rows for each date of the range
    that had no assignment. *)
Lemma generate_loop_count (n : nat) :
  forall c k db k' db',
    generate_loop pat n c k db = (Ok k', db') ->
    k' = k + 2 * len (free_dates c n db).
Proof.
  induction n as [|n IH]; intros c k db k' db' H.
  - cbn in H. injection H as <- <-. unfold free_dates. cbn. lia.
  - rewrite free_dates_S. rewrite generate_loop_S in H.
    destruct (exists_for_date c db) eqn:Hc.
    + cbn [app]. now apply IH in H.
    + destruct (generate_day pat c db) as [[u|e] db2] eqn:Hday; [|discriminate].
      destruct (generate_day_outcome pat c db _ _ Hday) as (new1 & E1 & Hd1 & _).
      apply IH in H.
      rewrite (free_dates_later (c + 1) c n db db2 new1 E1 Hd1) in H by lia.
      rewrite H, len_app. change (len [c]) with 1. lia.
Qed.

End GenerateCount.

Lemma generate_schedule_count_and_coverage_aux
  (start_d end_d now : Z) (g g' : ScheduleGenerator) (db db' : DB) (n : Z) :
  generate_schedule start_d end_d now (g, db) = (Ok n, (g', db')) ->
  n = 2 * len (free_dates start_d (Z.to_nat (end_d - start_d + 1)) db)
  /\ (forall d, start_d <= d <= end_d -> exists_for_date d db' = true).
Proof.
  unfold generate_schedule, atomic, bind, get_self, on_db, put_self, ret.
  cbn [fst snd].
  destruct (generate_loop (pattern g) (Z.to_nat (end_d - start_d + 1)) start_d 0 db)
    as [[k|e] db1] eqn:Hloop; [|discriminate].
  cbn [fst snd]. intros [= <- <- <-]. split.
  - now rewrite (generate_loop_count (pattern g) _ _ _ _ _ _ Hloop).
  - intros d Hd. eapply generate_loop_covers; [exact Hloop|lia].
Qed.

(** X21.  When [generate_schedule] returns, the count is exactly twice the
    number of dates of the range that had no assignment before the run,
    and afterwards every date of the range has an assignment.  In
    particular a range whose end is before its start creates nothing. *)
Theorem generate_schedule_count_and_coverage
  (start_d end_d now : Z) (g g' : ScheduleGenerator) (db db' : DB) (n : Z) :
  generate_schedule start_d end_d now (g, db) = (Ok n, (g', db')) ->
  n = 2 * len (free_dates start_d (Z.to_nat (end_d - start_d + 1)) db)
  /\ (forall d, start_d <= d <= end_d -> exists_for_date d db' = true)
  /\ (end_d < start_d -> n = 0 /\ db' = db)
  /\ last_generated g' = Some now.
Proof.
  unfold generate_schedule, atomic, bind, get_self, on_db, put_self, ret.
  cbn [fst snd].
  destruct (generate_loop (pattern g) (Z.to_nat (end_d - start_d + 1)) start_d 0 db)
    as [[k|e] db1] eqn:Hloop; [|discriminate].
  cbn [fst snd]. intros [= <- <- <-]. repeat apply conj.
  - now rewrite (generate_loop_count (pattern g) _ _ _ _ _ _ Hloop).
  - intros d Hd. eapply generate_loop_covers; [exact Hloop|lia].
  - intros Hlt. replace (Z.to_nat (end_d - start_d + 1)) with 0%nat in Hloop by lia.
    cbn in Hloop. now injection Hloop as <- <-.
  - reflexivity.
Qed.

Lemma generate_schedule_count_and_coverage_witness :
  4 = 2 * len (free_dates InitialData.monday
                 (Z.to_nat (InitialData.tuesday - InitialData.monday + 1))
                 InitialData.empty_db)
  /\ exists_for_date InitialData.tuesday InitialData.two_days_db = true.
Proof.
  assert (H : generate_schedule InitialData.monday InitialData.tuesday 0
                (InitialData.generator, InitialData.empty_db)
              = (Ok 4, (fst InitialData.two_days, InitialData.two_days_db)))
    by (vm_compute; reflexivity).
  destruct (generate_schedule_count_and_coverage _ _ _ _ _ _ _ _ H)
    as (Hn & Hcov & _).
  split; [exact Hn|]. apply Hcov. vm_compute. split; discriminate.
Defined.

(** X22.  [generate_next_5_months] covers 151 dates: when it returns,
    every date from today to today + 150 has an assignment, and the count
    is even and at most 302. *)
Theorem generate_next_5_months_outcome
  (today now : Z) (g g' : ScheduleGenerator) (db db' : DB) (n : Z) :
  generate_next_5_months today now (g, db) = (Ok n, (g', db')) ->
  (forall d, today <= d <= today + 150 -> exists_for_date d db' = true)
  /\ 0 <= n <= 302 /\ Z.even n = true.
Proof.
  unfold generate_next_5_months. cbv zeta. intros H.
  destruct (generate_schedule_count_and_coverage_aux today (today + 150) now g g' db db' n H)
    as (Hn & Hcov).
  split; [exact Hcov|].
  assert (Hlen : 0 <= len (free_dates today (Z.to_nat (today + 150 - today + 1)) db) <= 151).
  { unfold free_dates, len. split; [lia|].
    pose proof (filter_length_le
                  (fun d => negb (exists_for_date d db))
                  (map (fun i => today + Z.of_nat i)
                       (seq 0 (Z.to_nat (today + 150 - today + 1))))) as Hle.
    rewrite length_map, length_seq in Hle. lia. }
  rewrite Hn. split; [lia|]. rewrite Z.even_mul. reflexivity.
Qed.

Lemma generate_next_5_months_outcome_witness :
  exists_for_date (InitialData.monday + 150)
    (snd (snd (generate_next_5_months InitialData.monday 0
                 (InitialData.generator, InitialData.empty_db))))
  = true.
Proof.
  set (r := generate_next_5_months InitialData.monday 0
              (InitialData.generator, InitialData.empty_db)).
  assert (H : r = (Ok 302, (fst (snd r), snd (snd r)))) by (vm_compute; reflexivity).
  apply (proj1 (generate_next_5_months_outcome _ _ _ _ _ _ _ H)).
  vm_compute. split; discriminate.
Defined.

(** ** Double booking *)

Section DoubleBooking.

Variable pat : SchedulePattern.
Hypothesis slots_differ :
  forall d em_index dm_index,
    get_assignments_for_date pat d = Ok (em_index, dm_index) -> em_index <> dm_index.

Lemma NoDup_map_injective {A B} (f : A -> B) (l : list A) (x y : A) :
  NoDup (map f l) -> In x l -> In y l -> f x = f y -> x = y.
Proof.
  induction l as [|a l IH]; intros Hn Hx Hy E; [destruct Hx|].
  cbn in Hn. inversion Hn as [|? ? Ha Hl]; subst.
  destruct Hx as [->|Hx], Hy as [->|Hy]; try reflexivity.
  - exfalso. apply Ha. rewrite E. now apply in_map.
  - exfalso. apply Ha. rewrite <- E. now apply in_map.
  - now apply IH.
Qed.

Lemma analyst_at_found (i : Z) (db : DB) (a : Analyst) :
  analyst_at i db = Some a -> In a (analysts db) /\ pattern_position a = i.
Proof.
  unfold analyst_at. intros H. apply find_some in H as [Hin Hf].
  apply andb_prop in Hf as [Hp _]. apply Z.eqb_eq in Hp. now split.
Qed.

Lemma date_absent_pairs (c : Z) (db : DB) (pk : Z) :
  exists_for_date c db = false ->
  ~ In (c, pk) (map (fun a => (date a, analyst_pk (analyst a))) (assignments db)).
Proof.
  unfold exists_for_date. intros H Hin.
  apply in_map_iff in Hin as (a & [= Hd _] & Ha).
  assert (existsb (fun a0 => date a0 =? c) (assignments db) = true); [|congruence].
  apply existsb_exists. exists a. split; [exact Ha|]. now apply Z.eqb_eq.
Qed.

Lemma generate_day_no_double_booking (c : Z) (db db' : DB) (r : result unit) :
  NoDup (map analyst_pk (analysts db)) ->
  exists_for_date c db = false ->
  no_double_booking db ->
  generate_day pat c db = (r, db') ->
  no_double_booking db'.
Proof.
  intros Hpk Hfree Hok Hday. unfold no_double_booking in *.
  destruct (generate_day_rows pat c db _ _ Hday)
    as (_ & _ & new & E & Hnew & Hshape).
  rewrite E, map_app.
  destruct Hshape as [->|(em & dm & ea & da & Hslots & Hea & Hda & Hmap)];
    [cbn; now rewrite app_nil_r|].
  destruct Hmap as [Hmap|Hmap].
  - destruct new as [|r1 [|r2 new]]; try discriminate.
    inversion Hnew as [|? ? [Hd1 _] _]; subst. cbn.
    apply NoDup_snoc; [exact Hok|]. now apply date_absent_pairs.
  - destruct new as [|r1 [|r2 [|r3 new]]]; try discriminate.
    injection Hmap as Ha1 Ha2.
    inversion Hnew as [|? ? [Hd1 _] Hrest]; subst.
    inversion Hrest as [|? ? [Hd2 _] _]; subst.
    cbn. rewrite Hd2.
    change (map (fun a => (date a, analyst_pk (analyst a))) (assignments db)
            ++ [(date r1, analyst_pk (analyst r1)); (date r1, analyst_pk (analyst r2))])
      with (map (fun a => (date a, analyst_pk (analyst a))) (assignments db)
            ++ [(date r1, analyst_pk (analyst r1))] ++ [(date r1, analyst_pk (analyst r2))]).
    rewrite app_assoc. apply NoDup_snoc.
    + apply NoDup_snoc; [exact Hok|]. now apply date_absent_pairs.
    + rewrite in_app_iff. intros [Hin|[Heq|[]]].
      * exact (date_absent_pairs (date r1) db _ Hfree Hin).
      * injection Heq as Heq.
        apply analyst_at_found in Hea as [Hin1 Hp1].
        apply analyst_at_found in Hda as [Hin2 Hp2].
        pose proof (NoDup_map_injective analyst_pk _ _ _ Hpk Hin1 Hin2 Heq) as Esame.
        apply (slots_differ _ _ _ Hslots). congruence.
Qed.

Lemma generate_loop_no_double_booking (n : nat) :
  forall c k db r db',
    NoDup (map analyst_pk (analysts db)) ->
    no_double_booking db ->
    generate_loop pat n c k db = (r, db') ->
    no_double_booking db'.
Proof.
  induction n as [|n IH]; intros c k db r db' Hpk Hok H.
  - cbn in H. now injection H as <- <-.
  - rewrite generate_loop_S in H.
    destruct (exists_for_date c db) eqn:Hfree; [now apply IH in H|].
    destruct (generate_day pat c db) as [[u|e] db2] eqn:Hday.
    + pose proof (generate_day_no_double_booking c db _ _ Hpk Hfree Hok Hday) as Hok2.
      destruct (generate_day_rows pat c db _ _ Hday) as (Han & _).
      apply IH in H; [exact H| |exact Hok2]. now rewrite Han.
    + injection H as <- <-.
      exact (generate_day_no_double_booking c db _ _ Hpk Hfree Hok Hday).
Qed.

End DoubleBooking.

Lemma generated_slots_differ (days ref d em_index dm_index : Z) :
  get_assignments_for_date
    (mk_SchedulePattern ref (fst (generate_pattern_sequence days))
                            (snd (generate_pattern_sequence days))) d
  = Ok (em_index, dm_index) ->
  em_index <> dm_index.
Proof.
  rewrite generated_slots. cbv zeta. intros [= <- <-].
  match goal with |- ?x mod 4 <> _ => set (i := x) end.
  pose proof (Z.mod_pos_bound i 4 ltac:(lia)).
  pose proof (Z.div_mod (i mod 4 + 3) 4 ltac:(lia)).
  pose proof (Z.mod_pos_bound (i mod 4 + 3) 4 ltac:(lia)). lia.
Qed.

(** X23.  With the generated tables and an analyst table whose primary
    keys are distinct, [generate_schedule] never double-books: if no
    analyst holds two assignments on one date before the run, none does
    after it, whether the run returns or raises. *)
Theorem generate_schedule_never_double_books
  (start_d end_d now days ref : Z) (g : ScheduleGenerator) (db : DB) :
  pattern g = mk_SchedulePattern ref (fst (generate_pattern_sequence days))
                                     (snd (generate_pattern_sequence days)) ->
  NoDup (map analyst_pk (analysts db)) ->
  no_double_booking db ->
  no_double_booking (snd (snd (generate_schedule start_d end_d now (g, db)))).
Proof.
  intros Hpat Hpk Hok.
  unfold generate_schedule, atomic, bind, get_self, on_db, put_self, ret.
  cbn [fst snd].
  destruct (generate_loop (pattern g) (Z.to_nat (end_d - start_d + 1)) start_d 0 db)
    as [[k|e] db1] eqn:Hloop; cbn [fst snd]; [|exact Hok].
  eapply generate_loop_no_double_booking; [|exact Hpk|exact Hok|exact Hloop].
  rewrite Hpat. intros d em dm. apply generated_slots_differ.
Qed.

Lemma generate_schedule_never_double_books_witness :
  no_double_booking InitialData.two_days_db.
Proof.
  apply (generate_schedule_never_double_books InitialData.monday InitialData.tuesday
           0 365 (Calendar.date 2024 1 1) InitialData.generator InitialData.empty_db).
  - vm_compute. reflexivity.
  - concrete_NoDup.
  - constructor.
Defined.

(** ** The assignment form *)

Lemma existsb_pointwise {A} (f g : A -> bool) (l : list A) :
  (forall x, f x = g x) -> existsb f l = existsb g l.
Proof.
  intros H. induction l as [|x l IH]; [reflexivity|]. cbn. now rewrite H, IH.
Qed.

Lemma create_succeeds (kw : MonitoringAssignment) (db : DB) :
  window_known kw ->
  existsb (same_key kw) (assignments db) = false ->
  exists row db', objects_create kw db = (Ok row, db').
Proof.
  intros Hw Hk. unfold objects_create, MonitoringAssignment_save, bind, lift.
  destruct (pre_save_total _ (window_known_set_id None kw Hw)) as (a0 & Hpre).
  rewrite Hpre. apply pre_save_spec in Hpre as (Hid & Hd & Hmt & _).
  cbn in Hid, Hd, Hmt. unfold Model_save, insert_row. rewrite Hid.
  replace (existsb (same_key a0) (assignments db)) with false;
    [do 2 eexists; reflexivity|].
  rewrite <- Hk. symmetry. apply existsb_pointwise.
  intros r. unfold same_key. now rewrite Hd, Hmt.
Qed.

(** X24.  An assignment that [MonitoringAssignmentForm.clean] accepted for
    a new instance is written by the create view whenever its window can
    be computed: the save is not rejected by the unique constraint, one
    SCHEDULED row with the form's date, type and analyst is appended, the
    table keeps unique keys and stays free of double booking, and a
    second submission for the same date and type is then refused by
    [clean]. *)
Theorem validated_form_is_saved
  (d : Z) (mt : MonitoringType) (an : Analyst) (nt : string) (db : DB)
  (w : datetime * datetime) :
  MonitoringAssignmentForm_clean None (Some d) (Some mt) (Some an) db = Valid ->
  get_time_window_for_date mt d = Ok w ->
  exists a' db',
    CreateAssignmentView_form_valid d mt an nt db = (Ok a', db')
    /\ assignments db' = assignments db ++ [a']
    /\ date a' = d /\ monitoring_type a' = mt /\ analyst a' = an
    /\ status a' = "SCHEDULED"
    /\ window_start a' = Some (fst w) /\ window_end a' = Some (snd w)
    /\ (unique_together db -> unique_together db')
    /\ (no_double_booking db -> no_double_booking db')
    /\ (forall an2, MonitoringAssignmentForm_clean None (Some d) (Some mt) (Some an2) db'
                    = Invalid (KindAlreadyAssigned mt d)).
Proof.
  unfold MonitoringAssignmentForm_clean. cbn [exclude_pk].
  destruct (truthy (filter _ (assignments db))) eqn:Hk; [discriminate|].
  destruct (first_assignment _) as [other|] eqn:Ho; [discriminate|].
  intros _ Hw. destruct w as [ws we].
  assert (Hk' : filter (fun a => (date a =? d) && (mt_pk (monitoring_type a) =? mt_pk mt))%bool
                  (assignments db) = []).
  { destruct (filter _ (assignments db)); [reflexivity|discriminate]. }
  apply first_assignment_none in Ho.
  set (kw := new_assignment d mt an (Some ws) (Some we) "SCHEDULED" nt).
  assert (Hfree : existsb (same_key kw) (assignments db) = false).
  { destruct (existsb (same_key kw) (assignments db)) eqn:E; [|reflexivity].
    apply existsb_exists in E as (r & Hr & Hs).
    pose proof (filter_nil_forall _ _ Hk' r Hr) as F. cbn in F.
    unfold same_key in Hs. cbn in Hs.
    rewrite (Z.eqb_sym (date r)), (Z.eqb_sym (mt_pk (monitoring_type r))) in F.
    congruence. }
  destruct (create_succeeds kw db) as (row & db' & Hc);
    [left; split; discriminate|exact Hfree|].
  pose proof (create_row_fields kw row db db' ws we eq_refl eq_refl Hc)
    as (Hd & Hm & Ha & Hs & Hws & Hwe & Hrows & _).
  cbn in Hd, Hm, Ha, Hs.
  exists row, db'. repeat apply conj; try assumption.
  - unfold CreateAssignmentView_form_valid, bind, lift. rewrite Hw. exact Hc.
  - unfold unique_together. intros Hu. rewrite Hrows, map_app. cbn.
    apply NoDup_snoc; [exact Hu|].
    replace (key row) with (key kw) by (unfold key; now rewrite Hd, Hm).
    now apply key_absent.
  - unfold no_double_booking. intros Hn. rewrite Hrows, map_app. cbn.
    apply NoDup_snoc; [exact Hn|]. rewrite Hd, Ha. intros Hin.
    apply in_map_iff in Hin as (r & [= Hrd Hrp] & Hr).
    pose proof (filter_nil_forall _ _ Ho r Hr) as F. cbn in F.
    unfold analyst_eq in F. rewrite Hrd, Hrp, !Z.eqb_refl in F. discriminate.
  - intros an2. rewrite Hrows, filter_app, Hk'. cbn.
    rewrite Hd, Hm, !Z.eqb_refl. reflexivity.
Qed.

Lemma validated_form_is_saved_witness :
  exists a' db',
    CreateAssignmentView_form_valid (Calendar.date 2024 1 10) InitialData.EM
      InitialData.gezagn "" InitialData.two_days_db = (Ok a', db')
    /\ assignments db' = assignments InitialData.two_days_db ++ [a']
    /\ status a' = "SCHEDULED".
Proof.
  destruct (validated_form_is_saved (Calendar.date 2024 1 10) InitialData.EM
              InitialData.gezagn "" InitialData.two_days_db
              (mk_datetime (Calendar.date 2024 1 9) 17 0,
               mk_datetime (Calendar.date 2024 1 10) 7 0))
    as (a' & db' & H1 & H2 & _ & _ & _ & H3 & _).
  - vm_compute. reflexivity.
  - vm_compute. reflexivity.
  - exists a', db'. exact (conj H1 (conj H2 H3)).
Defined.

(** ** Leave validation and impact *)

(** X25.  [LeaveRequest.clean] accepts exactly the requests that start
    today or later and do not end before they start; for an accepted
    request every assignment that [assess_impact] counts is dated today
    or later, so approving the leave never concerns a past assignment. *)
Theorem accepted_leave_affects_no_past_assignment (today : Z) (self : LeaveRequest) :
  (LeaveRequest_clean today self = Valid
   <-> today <= start_date self <= end_date self)
  /\ (LeaveRequest_clean today self = Valid ->
      forall a, impacted self a = true ->
                today <= date a
                /\ analyst_pk (analyst a) = analyst_pk (leave_analyst self)
                /\ (status a = "SCHEDULED" \/ status a = "CONFIRMED")).
Proof.
  unfold LeaveRequest_clean.
  destruct (Z.ltb_spec (end_date self) (start_date self));
    destruct (Z.ltb_spec (start_date self) today).
  all: split; [split; [try discriminate; intros _; lia | intros; try lia; reflexivity]|].
  all: try discriminate.
  intros _ a Hi. unfold impacted in Hi.
  apply andb_prop in Hi as [Hi Hst]. apply andb_prop in Hi as [Hpk Hrange].
  apply andb_prop in Hrange as [Hlo Hhi].
  apply Z.eqb_eq in Hpk. apply Z.leb_le in Hlo.
  repeat split; [lia|exact Hpk|].
  cbn in Hst. apply orb_prop in Hst as [Hs|Hs].
  - left. now apply String.eqb_eq.
  - rewrite orb_false_r in Hs. right. now apply String.eqb_eq.
Qed.

(** X26.  A range accepted by [ScheduleGenerationForm.clean] has at most
    181 dates, so a generation run over it creates at most 362
    assignments. *)
Theorem validated_range_bounds_generation
  (start_d end_d now : Z) (g g' : ScheduleGenerator) (db db' : DB) (n : Z) :
  ScheduleGenerationForm_clean (Some start_d) (Some end_d) = Valid ->
  generate_schedule start_d end_d now (g, db) = (Ok n, (g', db')) ->
  0 <= end_d - start_d <= 180 /\ 0 <= n <= 362.
Proof.
  unfold ScheduleGenerationForm_clean.
  destruct (Z.ltb_spec end_d start_d) as [|Hlo]; [discriminate|].
  destruct (Z.gtb_spec (end_d - start_d) 180) as [|Hhi]; [discriminate|].
  intros _ H.
  destruct (generate_schedule_count_and_coverage_aux _ _ _ _ _ _ _ _ H) as (Hn & _).
  split; [lia|].
  assert (Hlen : 0 <= len (free_dates start_d (Z.to_nat (end_d - start_d + 1)) db) <= 181).
  { unfold free_dates, len. split; [lia|].
    pose proof (filter_length_le
                  (fun d => negb (exists_for_date d db))
                  (map (fun i => start_d + Z.of_nat i)
                       (seq 0 (Z.to_nat (end_d - start_d + 1))))) as Hle.
    rewrite length_map, length_seq in Hle. lia. }
  lia.
Qed.

Lemma validated_range_bounds_generation_witness :
  0 <= InitialData.tuesday - InitialData.monday <= 180 /\ 0 <= 4 <= 362.
Proof.
  apply (validated_range_bounds_generation InitialData.monday InitialData.tuesday 0
           InitialData.generator (fst InitialData.two_days)
           InitialData.empty_db InitialData.two_days_db 4).
  - reflexivity.
  - vm_compute. reflexivity.
Defined.
